(** * Crater map: a shallow embedding of [script.js] and of its diameter variant

    The repository holds two near-identical browser scripts that draw lunar
    craters on an equirectangular map:

    - [src/script.js], the _time_ variant: the slider filters on the creation
      timestep, and the row parser shifts the longitude by 180 degrees;
    - [src/unnamed/part_000], the _diameter_ variant: the slider filters on the
      diameter, and every control of the page is optional.

    Numbers.  A JavaScript number is modelled as an exact real number extended
    with the two infinities and [NaN]; rounding to binary64, overflow and the
    sign of zero are abstracted.  Comparisons are the boolean functions of the
    language: every comparison with [NaN] is [false].  What is proved of
    numbers is stated so that it survives rounding (bounds and non-strict
    order, no strict order and no exact threshold); where rounding decides,
    at the ends of the longitude interval, the arithmetic of the parser is
    evaluated on binary64 numbers themselves (see [Binary64]).

    Calls.  [xs.push(...ys)] passes every element of [ys] as an argument, and
    an engine throws a [RangeError] when a call has more arguments than it
    accepts; the bound, [maxArguments], is a parameter of the time variant.

    Objects.  A parsed row is an object, and [Array.prototype.includes]
    compares objects by reference.  A crater object is therefore a pair of an
    address and of its fields; the fields never change after parsing.

    The D3 library, the DOM and the CSV reader are outside the repository: the
    file keeps of them what the scripts observe (see [D3] and [Dom]). *)

From Stdlib Require Import Reals Lra Lia ZArith List Bool String Ascii.
From Stdlib Require Import Zfloor.
From Corelib Require PrimFloat.
Import ListNotations.

Set Implicit Arguments.

(** ** JavaScript numbers *)

Module JS.

Inductive number : Type :=
| NaN
| NegInf
| Fin (r : R)
| PosInf.

Definition Rltb (a b : R) : bool := if Rlt_dec a b then true else false.
Definition Rleb (a b : R) : bool := if Rle_dec a b then true else false.
Definition Reqb (a b : R) : bool := if Req_dec_T a b then true else false.

Definition isNaN (x : number) : bool :=
  match x with NaN => true | _ => false end.

(** [x < y] *)
Definition ltb (x y : number) : bool :=
  match x, y with
  | NaN, _ | _, NaN => false
  | _, NegInf => false
  | NegInf, _ => true
  | PosInf, _ => false
  | Fin _, PosInf => true
  | Fin a, Fin b => Rltb a b
  end.

(** [x <= y] *)
Definition leb (x y : number) : bool :=
  match x, y with
  | NaN, _ | _, NaN => false
  | NegInf, _ => true
  | _, PosInf => true
  | PosInf, _ => false
  | Fin _, NegInf => false
  | Fin a, Fin b => Rleb a b
  end.

(** [x > y] and [x >= y] are the mirrored comparisons. *)
Definition gtb (x y : number) : bool := ltb y x.
Definition geb (x y : number) : bool := leb y x.

Definition neg (x : number) : number :=
  match x with
  | NaN => NaN
  | NegInf => PosInf
  | Fin r => Fin (- r)
  | PosInf => NegInf
  end.

(** [x + y] *)
Definition add (x y : number) : number :=
  match x, y with
  | NaN, _ | _, NaN => NaN
  | PosInf, NegInf | NegInf, PosInf => NaN
  | PosInf, _ | _, PosInf => PosInf
  | NegInf, _ | _, NegInf => NegInf
  | Fin a, Fin b => Fin (a + b)
  end.

(** [x - y] *)
Definition sub (x y : number) : number := add x (neg y).

(** The infinity whose sign is the one of [s * r], [NaN] when [r] is zero. *)
Definition inf_times (positive : bool) (r : R) : number :=
  if Reqb r 0 then NaN
  else if xorb positive (Rltb 0 r) then NegInf else PosInf.

(** [x * y] *)
Definition mul (x y : number) : number :=
  match x, y with
  | NaN, _ | _, NaN => NaN
  | PosInf, PosInf | NegInf, NegInf => PosInf
  | PosInf, NegInf | NegInf, PosInf => NegInf
  | PosInf, Fin r | Fin r, PosInf => inf_times true r
  | NegInf, Fin r | Fin r, NegInf => inf_times false r
  | Fin a, Fin b => Fin (a * b)
  end.

(** [Math.sqrt] *)
Definition Math_sqrt (x : number) : number :=
  match x with
  | NaN | NegInf => NaN
  | Fin r => if Rltb r 0 then NaN else Fin (sqrt r)
  | PosInf => PosInf
  end.

(** [Math.min] and [Math.max] of two arguments: [NaN] as soon as one argument
    is [NaN]. *)
Definition Math_min (x y : number) : number :=
  if isNaN x || isNaN y then NaN else if ltb y x then y else x.

Definition Math_max (x y : number) : number :=
  if isNaN x || isNaN y then NaN else if ltb x y then y else x.

(** [Math.ceil] *)
Definition Math_ceil (x : number) : number :=
  match x with
  | Fin r => Fin (IZR (Zceil r))
  | _ => x
  end.

(** [ToBoolean] of a number: zero and [NaN] are falsy. *)
Definition truthy (x : number) : bool :=
  match x with
  | NaN => false
  | Fin r => negb (Reqb r 0)
  | _ => true
  end.

End JS.

Import JS.

Declare Scope js_scope.
Delimit Scope js_scope with js.
Bind Scope js_scope with number.
Notation "x <? y" := (ltb x y) : js_scope.
Notation "x <=? y" := (leb x y) : js_scope.
Notation "x >=? y" := (geb x y) : js_scope.
Notation "x + y" := (add x y) : js_scope.
Notation "x - y" := (sub x y) : js_scope.
Notation "x * y" := (mul x y) : js_scope.
Coercion Fin : R >-> number.

(** ** Strings read as numbers

    The unary [+] of the row parser and of the slider applies the language's
    [ToNumber].  A CSV cell is a string, or [undefined] when the file has no
    such column.  [StringToNumber] follows the grammar of numeric string
    literals; it trims ASCII white space only and gives the exact value of
    the literal, without the rounding and the overflow of binary64. *)

Module Coerce.

Local Open Scope Z_scope.

Definition is_space (c : ascii) : bool :=
  let n := Z.of_nat (nat_of_ascii c) in
  (9 <=? n) && (n <=? 13) || (n =? 32).

Fixpoint trim_left (s : list ascii) : list ascii :=
  match s with
  | c :: r => if is_space c then trim_left r else s
  | [] => []
  end.

Definition trim (s : list ascii) : list ascii :=
  rev (trim_left (rev (trim_left s))).

(** The value of [c] as a digit in [base], if it is one. *)
Definition digit (base : Z) (c : ascii) : option Z :=
  let n := Z.of_nat (nat_of_ascii c) in
  let v := if (48 <=? n) && (n <=? 57) then n - 48
           else if (97 <=? n) && (n <=? 102) then n - 87
           else if (65 <=? n) && (n <=? 70) then n - 55
           else base in
  if v <? base then Some v else None.

(** The longest run of digits at the head of [s]: its value on top of [acc],
    the number of digits read on top of [n], and what follows. *)
Fixpoint digits (base : Z) (s : list ascii) (acc n : Z) : Z * Z * list ascii :=
  match s with
  | c :: r =>
      match digit base c with
      | Some v => digits base r (acc * base + v) (n + 1)
      | None => (acc, n, s)
      end
  | [] => (acc, n, [])
  end.

(** [m * 10 ^ e] *)
Definition decimal (m e : Z) : number :=
  Fin (if 0 <=? e then IZR (m * 10 ^ e) else (IZR m / IZR (10 ^ (- e)))%R).

Definition exponent (s : list ascii) : option Z :=
  let '(sg, r) := match s with
                  | "+"%char :: r => (1, r)
                  | "-"%char :: r => (-1, r)
                  | _ => (1, s)
                  end in
  match digits 10 r 0 0 with
  | (v, n, []) => if 0 <? n then Some (sg * v) else None
  | _ => None
  end.

Definition unsigned_decimal (s : list ascii) : option number :=
  if list_eq_dec ascii_dec s (list_ascii_of_string "Infinity"%string) then Some PosInf
  else
    let '(ip, ni, r1) := digits 10 s 0 0 in
    let '(fp, nf, r2) := match r1 with
                         | "."%char :: r => digits 10 r 0 0
                         | _ => (0, 0, r1)
                         end in
    if ni + nf =? 0 then None
    else
      let m := ip * 10 ^ nf + fp in
      match r2 with
      | [] => Some (decimal m (- nf))
      | c :: r3 =>
          if (Ascii.eqb c "e"%char || Ascii.eqb c "E"%char)%bool
          then option_map (fun e => decimal m (e - nf)) (exponent r3)
          else None
      end.

Definition non_decimal (s : list ascii) : option number :=
  match s with
  | "0"%char :: p :: r =>
      let base := if (Ascii.eqb p "x"%char || Ascii.eqb p "X"%char)%bool then 16
                  else if (Ascii.eqb p "o"%char || Ascii.eqb p "O"%char)%bool then 8
                  else if (Ascii.eqb p "b"%char || Ascii.eqb p "B"%char)%bool then 2
                  else 0 in
      match digits base r 0 0 with
      | (v, n, []) => if 0 <? n then Some (Fin (IZR v)) else None
      | _ => None
      end
  | _ => None
  end.

Definition or_NaN (o : option number) : number :=
  match o with Some v => v | None => NaN end.

Definition StringToNumber (s : string) : number :=
  match trim (list_ascii_of_string s) with
  | [] => Fin 0
  | t =>
      match non_decimal t with
      | Some v => v
      | None =>
          match t with
          | "+"%char :: r => or_NaN (unsigned_decimal r)
          | "-"%char :: r => neg (or_NaN (unsigned_decimal r))
          | _ => or_NaN (unsigned_decimal t)
          end
      end
  end.

(** [+v] for a cell [v]: [undefined] gives [NaN]. *)
Definition ToNumber (v : option string) : number :=
  match v with
  | None => NaN
  | Some s => StringToNumber s
  end.

(** [ToBoolean] of a cell: [undefined] and the empty string are falsy. *)
Definition ToBoolean (v : option string) : bool :=
  match v with
  | None | Some EmptyString => false
  | Some _ => true
  end.

End Coerce.

Import Coerce.

Local Open Scope string_scope.
Local Open Scope list_scope.

(** ** Data model *)

(** A raw CSV row, as [d3.csv] hands it to the row function: one cell per
    column of the header [Longitude,Latitude,diameter,TimeStepCreated,
    SurvivedTimeStep], [None] for a column the file does not have. *)
Module Csv.
Record RawRow : Type := {
  Longitude : option string;
  Latitude : option string;
  diameter : option string;
  TimeStepCreated : option string;
  SurvivedTimeStep : option string
}.
End Csv.

(** The object literal a row parser returns; [survivedTime] is [None] for
    [null]. *)
Record CraterRecord : Type := {
  lon : number;
  lat : number;
  diameter : number;
  created : number;
  survivedTime : option number
}.

(** A crater object in memory: its address and its fields. *)
Record Crater : Type := {
  addr : nat;
  fields :> CraterRecord
}.

(** [xs.includes(d)] on an array of objects: same reference. *)
Definition includes (xs : list Crater) (d : Crater) : bool :=
  existsb (fun x => Nat.eqb (addr x) (addr d)) xs.

(** [xs.concat(ys)] *)
Definition concat (A : Type) (xs ys : list A) : list A := xs ++ ys.

(** [a || b] where [a] may be [undefined]. *)
Definition or_else (a : option number) (b : number) : number :=
  match a with
  | Some x => if truthy x then x else b
  | None => b
  end.

(** Normal and abrupt completion of a function body.  The exceptions the
    scripts can raise are the [TypeError] of a property read or written on
    [null] or [undefined], and the [RangeError] of a call with more arguments
    than the engine accepts. *)
Inductive error : Type := TypeError | RangeError.

Inductive completion (A : Type) : Type :=
| Normal (a : A)
| Throw (e : error).
Arguments Throw {A} e.

Definition bind (A B : Type) (c : completion A) (k : A -> completion B) : completion B :=
  match c with
  | Normal a => k a
  | Throw e => Throw e
  end.

Notation "x <- c ;; k" := (bind c (fun x => k))
  (at level 61, c at next level, right associativity).

(** [o.f ...] for a reference [o] that may be [null]. *)
Definition deref (A : Type) (o : option A) : completion A :=
  match o with
  | Some x => Normal x
  | None => Throw TypeError
  end.

(** [xs.push(...ys)]: every element of [ys] is an argument of the call.  The
    engine accepts at most [maxArguments] arguments and throws a [RangeError]
    beyond; otherwise the arguments are appended one by one.  The array is
    returned here in place of the mutation. *)
Definition push (A : Type) (maxArguments : nat) (xs ys : list A) : completion (list A) :=
  if (List.length ys <=? maxArguments)%nat
  then Normal (fold_left (fun acc y => acc ++ [y]) ys xs)
  else Throw RangeError.

(** ** What the scripts observe of D3 *)

Module D3.

(** [d3.csv(url, row)] once the file is read: [row] is applied to every raw
    row in order and each result is a fresh object; [base] is the first free
    address. *)
Fixpoint csv (base : nat) (rows : list Csv.RawRow) (row : Csv.RawRow -> CraterRecord)
  : list Crater :=
  match rows with
  | [] => []
  | d :: rest => {| addr := base; fields := row d |} :: csv (S base) rest row
  end.

(** [d3.max(values)] of the d3-array library: the loop
    [if (value != null && (max < value || (max === undefined && value >= value))) max = value],
    with [None] for [undefined].  Values that do not compare with themselves
    ([NaN]) are skipped. *)
Definition max_step (max : option number) (value : number) : option number :=
  match max with
  | Some m => if (m <? value)%js then Some value else max
  | None => if (value >=? value)%js then Some value else None
  end.

Definition max (values : list number) : option number :=
  fold_left max_step values None.

End D3.

(** ** What the scripts observe of the page *)

Module Dom.

(** The text of an attribute or of a node: a literal of the page, or what the
    script stored there, a number ([el.max = n]) or the template
    [`${n} km`]. *)
Inductive domstring : Type :=
| Lit (s : string)
| OfNumber (n : number)
| OfNumberKm (n : number).

(** [+text]: a stored number reads back as itself. *)
Definition ToNumber (t : domstring) : number :=
  match t with
  | Lit s => Coerce.StringToNumber s
  | OfNumber n => n
  | OfNumberKm _ => NaN
  end.

Record Checkbox : Type := { checked : bool }.
Record Slider : Type := { max : domstring; value : domstring }.
Record Label : Type := { textContent : domstring }.

(** The four controls of one view, as [document.getElementById] finds them:
    [None] for [null]. *)
Record Page : Type := {
  showSurvivedInput : option Checkbox;
  showErasedInput : option Checkbox;
  slider : option Slider;
  sliderLabel : option Label
}.

(** One [circle] of the marker layer after the data join: the datum bound to
    it, its radius and its class.  The join of d3-selection leaves one circle
    per element of the bound array, in the order of the array; the screen
    position comes from the projection of D3 and is left out. *)
Record Marker : Type := {
  datum : Crater;
  r : number;
  class : string
}.

(** The page and its marker layer. *)
Record Scene : Type := {
  page : Page;
  circles : list Marker
}.

End Dom.

(** ** What the scripts observe of the outline file *)

Module GeoJson.

(** A position of a GeoJSON file: a longitude, a latitude, and the numbers
    that may follow them (an altitude). *)
Record Position : Type := {
  plon : number;
  plat : number;
  more : list number
}.

(** A linear ring, the [coordinates] of the polygon of a feature (its
    [geometry.coordinates]), and the feature collection.  The types cover
    the files whose features are polygons: a feature without geometry or
    with a geometry of another kind is outside of them. *)
Definition Ring : Type := list Position.
Record Feature : Type := { coordinates : list Ring }.
Record Region : Type := { features : list Feature }.

End GeoJson.

(** ** The time variant: [src/script.js] *)

Module TimeVariant.

Import Dom.

(** [parseCraterRow], lines 16-29. *)
Definition parseCraterRow (d : Csv.RawRow) : CraterRecord :=
  let lon := Coerce.ToNumber (Csv.Longitude d) in
  let lon := (lon - Fin 180)%js in
  let lon := if (lon <? Fin (-180))%js then (lon + Fin 360)%js else lon in
  {| lon := lon;
     lat := Coerce.ToNumber (Csv.Latitude d);
     diameter := Coerce.ToNumber (Csv.diameter d);
     created := Coerce.ToNumber (Csv.TimeStepCreated d);
     survivedTime :=
       if Coerce.ToBoolean (Csv.SurvivedTimeStep d)
       then Some (Coerce.ToNumber (Csv.SurvivedTimeStep d))
       else None |}.

(** [craterRadius], lines 206-210. *)
Definition craterRadius (diameter : number) : number :=
  let minR := Fin 1 in
  let maxR := Fin 8 in
  Math_max minR (Math_min maxR (Math_sqrt diameter * Fin 0.8)%js).

(** [setupSlider], lines 63-74, for the controls of the view. *)
Definition setupSlider (maxVal : number) (p : Page) : Page :=
  {| showSurvivedInput := showSurvivedInput p;
     showErasedInput := showErasedInput p;
     slider :=
       match slider p with
       | Some _ => Some {| max := OfNumber maxVal; value := OfNumber (Fin 0) |}
       | None => None
       end;
     sliderLabel :=
       match sliderLabel p with
       | Some _ => Some {| textContent := Lit "0" |}
       | None => None
       end |}.

Section View.

(** The number of arguments the engine accepts in a call, and the arguments
    of [createCraterMap], which its inner functions close over. *)
Variable maxArguments : nat.
Variables survivedData erasedData : list Crater.

(** The [attr] calls of lines 155-158 on one datum. *)
Definition circle (d : Crater) : Marker :=
  {| datum := d;
     r := craterRadius (diameter d);
     class := if includes survivedData d then "crater-survived" else "crater-erased" |}.

(** [update], lines 131-176. *)
Definition update (p : Page) : completion Scene :=
  s <- deref (showSurvivedInput p) ;;
  let showSurvived := checked s in
  e <- deref (showErasedInput p) ;;
  let showErased := checked e in
  sl <- deref (slider p) ;;
  let minTime := ToNumber (value sl) in
  let filtered : list Crater := [] in
  filtered <-
    (if showSurvived
     then push maxArguments filtered
            (filter (fun d : Crater => (created d >=? minTime)%js) survivedData)
     else Normal filtered) ;;
  filtered <-
    (if showErased
     then push maxArguments filtered
            (filter (fun d : Crater => (created d >=? minTime)%js) erasedData)
     else Normal filtered) ;;
  Normal {| page := p; circles := map circle filtered |}.

(** The listener of the slider, lines 181-185: it copies the value of the
    slider into the label, then redraws. *)
Definition sliderInput (p : Page) : completion Scene :=
  sl <- deref (slider p) ;;
  _ <- deref (sliderLabel p) ;;
  update {| showSurvivedInput := showSurvivedInput p;
            showErasedInput := showErasedInput p;
            slider := slider p;
            sliderLabel := Some {| textContent := value sl |} |}.

(** [createCraterMap], lines 77-203, from the lookup of the controls on: the
    three [addEventListener] calls of lines 179-181, then the first draw. *)
Definition createCraterMap (p : Page) : completion Scene :=
  _ <- deref (showSurvivedInput p) ;;
  _ <- deref (showErasedInput p) ;;
  _ <- deref (slider p) ;;
  update p.

End View.

(** The handler of [d3.json], lines 101-107: the first ring of the first
    feature is replaced by its image under the longitude shift; a position
    becomes the pair of its shifted longitude and of its latitude.  [xs[0]]
    of an empty array is [undefined], and reading a property of it throws. *)
Definition outlineLoaded (region : GeoJson.Region) : completion GeoJson.Region :=
  feature <- deref (hd_error (GeoJson.features region)) ;;
  ring <- deref (hd_error (GeoJson.coordinates feature)) ;;
  let ring' :=
    map (fun p : GeoJson.Position =>
           let lon := GeoJson.plon p in
           let lat := GeoJson.plat p in
           let lon := (lon - Fin 180)%js in
           let lon := if (lon <? Fin (-180))%js then (lon + Fin 360)%js else lon in
           {| GeoJson.plon := lon; GeoJson.plat := lat; GeoJson.more := [] |})
        ring in
  Normal
    {| GeoJson.features :=
         {| GeoJson.coordinates := ring' :: tl (GeoJson.coordinates feature) |}
         :: tl (GeoJson.features region) |}.

(** The bound of the slider, lines 38-40. *)
Definition roundedMax (survMare erasedMare : list Crater) : number :=
  let allTimes := map (fun d : Crater => created d) (survMare ++ erasedMare) in
  let maxTime := D3.max allTimes in
  Math_ceil (or_else maxTime (Fin 100)).

(** The handler of [Promise.all], lines 35-58, on the rows of the two files. *)
Definition loaded (maxArguments : nat) (survRows erasedRows : list Csv.RawRow)
    (p : Page) : completion Scene :=
  let survMare := D3.csv 0 survRows parseCraterRow in
  let erasedMare := D3.csv (List.length survRows) erasedRows parseCraterRow in
  createCraterMap maxArguments survMare erasedMare
    (setupSlider (roundedMax survMare erasedMare) p).

End TimeVariant.

(** ** The longitude arithmetic of the time variant on binary64 numbers *)

Module Binary64.

Import PrimFloat.

(** Lines 19-20 of [parseCraterRow] in [src/script.js], on the number [L]
    that [+d.Longitude] gave:
    [lon = lon - 180; if (lon < -180) lon += 360]. *)
Definition parse_lon (L : PrimFloat.float) : PrimFloat.float :=
  let lon := PrimFloat.sub L 180%float in
  if PrimFloat.ltb lon (-180)%float then PrimFloat.add lon 360%float else lon.

(** [x] lies in the interval from -180 (included) to 180 (excluded). *)
Definition in_range (x : PrimFloat.float) : bool :=
  PrimFloat.leb (-180)%float x && PrimFloat.ltb x 180%float.

Definition minus_360 : PrimFloat.float := (-360)%float.
Definition minus_180 : PrimFloat.float := (-180)%float.

(** The binary64 number just below -360. *)
Definition below_minus_360 : PrimFloat.float := PrimFloat.next_down minus_360.

End Binary64.

(** ** The diameter variant: [src/unnamed/part_000] *)

Module DiameterVariant.

Import Dom.

(** [parseCraterRow], lines 16-24. *)
Definition parseCraterRow (d : Csv.RawRow) : CraterRecord :=
  {| lon := Coerce.ToNumber (Csv.Longitude d);
     lat := Coerce.ToNumber (Csv.Latitude d);
     diameter := Coerce.ToNumber (Csv.diameter d);
     created := Coerce.ToNumber (Csv.TimeStepCreated d);
     survivedTime := Some (Coerce.ToNumber (Csv.SurvivedTimeStep d)) |}.

(** [craterRadius], lines 181-187. *)
Definition craterRadius (diameter : number) : number :=
  let minR := Fin 1 in
  let maxR := Fin 8 in
  Math_max minR (Math_min maxR (Math_sqrt diameter * Fin 0.8)%js).

(** [setupSlider], lines 63-74, for the controls of the view. *)
Definition setupSlider (maxVal : number) (p : Page) : Page :=
  {| showSurvivedInput := showSurvivedInput p;
     showErasedInput := showErasedInput p;
     slider :=
       match slider p with
       | Some _ => Some {| max := OfNumber maxVal; value := OfNumber (Fin 0) |}
       | None => None
       end;
     sliderLabel :=
       match sliderLabel p with
       | Some _ => Some {| textContent := Lit "0 km" |}
       | None => None
       end |}.

Section View.

Variables survivedData erasedData : list Crater.

(** The [attr] calls of lines 142-145 on one datum. *)
Definition circle (d : Crater) : Marker :=
  {| datum := d;
     r := craterRadius (diameter d);
     class := if includes survivedData d then "crater-survived" else "crater-erased" |}.

(** [update], lines 106-163. *)
Definition update (p : Page) : completion Scene :=
  let showSurvived :=
    match showSurvivedInput p with Some i => checked i | None => true end in
  let showErased :=
    match showErasedInput p with Some i => checked i | None => true end in
  let minDiameter :=
    match slider p with Some s => ToNumber (value s) | None => Fin 0 end in
  let p :=
    match sliderLabel p with
    | Some _ =>
        {| showSurvivedInput := showSurvivedInput p;
           showErasedInput := showErasedInput p;
           slider := slider p;
           sliderLabel := Some {| textContent := OfNumberKm minDiameter |} |}
    | None => p
    end in
  let filtered : list Crater := [] in
  let filtered :=
    if showSurvived
    then concat filtered (filter (fun d : Crater => (diameter d >=? minDiameter)%js) survivedData)
    else filtered in
  let filtered :=
    if showErased
    then concat filtered (filter (fun d : Crater => (diameter d >=? minDiameter)%js) erasedData)
    else filtered in
  Normal {| page := p; circles := map circle filtered |}.

(** [createCraterMap], lines 77-178, from the lookup of the controls on: the
    listeners are attached to the controls that exist, then the first draw. *)
Definition createCraterMap (p : Page) : completion Scene := update p.

End View.

(** The bound of the slider, lines 32-38.  (Line 42 also sets up the
    slider of the second view, whose map is not built.) *)
Definition roundedMax (survMare erasedMare : list Crater) : number :=
  let allDiameters := map (fun d : Crater => diameter d) (survMare ++ erasedMare) in
  let maxDiameter := D3.max allDiameters in
  Math_ceil (or_else maxDiameter (Fin 50)).

(** The handler of [Promise.all], lines 30-58, on the rows of the two files. *)
Definition loaded (survRows erasedRows : list Csv.RawRow) (p : Page) : completion Scene :=
  let survMare := D3.csv 0 survRows parseCraterRow in
  let erasedMare := D3.csv (List.length survRows) erasedRows parseCraterRow in
  createCraterMap survMare erasedMare (setupSlider (roundedMax survMare erasedMare) p).

End DiameterVariant.

(** * Notions of the specification and inputs *)

(** [x] lies in the interval from -180 (included) to 180 (excluded). *)
Definition in_range (x : number) : bool :=
  ((x >=? Fin (-180)) && (x <? Fin 180))%js.

(** The longitude transform as the specification words it:
    [lon' = lon - 180; if lon' < -180 then lon' += 360]. *)
Definition wrap (lon : number) : number :=
  let lon' := (lon - Fin 180)%js in
  if (lon' <? Fin (-180))%js then (lon' + Fin 360)%js else lon'.

(** A row of the survived file with the given longitude cell; the other
    cells are the ones of the example of the specification. *)
Definition row_at (longitude : string) : Csv.RawRow :=
  {| Csv.Longitude := Some longitude;
     Csv.Latitude := Some "10";
     Csv.diameter := Some "16";
     Csv.TimeStepCreated := Some "5";
     Csv.SurvivedTimeStep := None |}.

(** [clamp(x, lo, hi)] as the specification expands it in its example:
    [min(hi, max(lo, x))]. *)
Definition clamp (x lo hi : number) : number := Math_min hi (Math_max lo x).

(** [x] lies between 1 and 8, both included. *)
Definition in_1_8 (x : number) : bool := ((Fin 1 <=? x) && (x <=? Fin 8))%js.

(** [m] is the maximum of the numbers of [values]: a number of the list that
    is not [NaN] and that every other number of the list is below. *)
Definition is_max (values : list number) (m : number) : Prop :=
  In m values /\ isNaN m = false /\
  forall v, In v values -> isNaN v = false -> (v <=? m)%js = true.

(** [xs] keeps some of the elements of [ys], in the order of [ys]. *)
Inductive subseq {A : Type} : list A -> list A -> Prop :=
| subseq_nil : subseq [] []
| subseq_skip (y : A) (xs ys : list A) : subseq xs ys -> subseq xs (y :: ys)
| subseq_keep (y : A) (xs ys : list A) : subseq xs ys -> subseq (y :: xs) (y :: ys).

(** The records of [xs] whose filter field is at least the threshold. *)
Definition matching (field : CraterRecord -> number) (threshold : number)
    (xs : list Crater) : list Crater :=
  filter (fun d : Crater => (field d >=? threshold)%js) xs.

(** The filtered sequence as the specification words it: the matching
    survived records if [showSurvived], then the matching erased records if
    [showErased]. *)
Definition filtered_spec (field : CraterRecord -> number)
    (showSurvived showErased : bool) (threshold : number)
    (survived erased : list Crater) : list Crater :=
  (if showSurvived then matching field threshold survived else [])
  ++ (if showErased then matching field threshold erased else []).

(** The call [filtered.push(...xs)] for a category, made only when the
    category is shown, stays within the limit of the engine. *)
Definition fits (maxArguments : nat) (show : bool) (xs : list Crater) : bool :=
  if show then (List.length xs <=? maxArguments)%nat else true.

(** The two calls of a redraw of the time variant stay within the limit of
    the engine: each shown category has at most [maxArguments] records that
    pass the threshold. *)
Definition within_limit (maxArguments : nat) (showSurvived showErased : bool)
    (t : number) (survived erased : list Crater) : bool :=
  fits maxArguments showSurvived (matching created t survived)
  && fits maxArguments showErased (matching created t erased).

(** An engine that accepts 65535 arguments in a call. *)
Definition example_limit : nat := N.to_nat 65535.

(** A survived file of [n] rows, each the example row of the specification. *)
Definition crowd (n : nat) : list Crater :=
  D3.csv 0 (repeat (row_at "190") n) TimeVariant.parseCraterRow.

(** A page where the two checkboxes and the slider exist, in a given state. *)
Definition page_of (showSurvived showErased : bool) (s : Dom.Slider)
    (label : option Dom.Label) : Dom.Page :=
  {| Dom.showSurvivedInput := Some {| Dom.checked := showSurvived |};
     Dom.showErasedInput := Some {| Dom.checked := showErased |};
     Dom.slider := Some s;
     Dom.sliderLabel := label |}.

(** The control state the diameter variant reads from a page: an absent
    checkbox shows its category, an absent slider is a threshold of zero. *)
Definition shown (c : option Dom.Checkbox) : bool :=
  match c with Some i => Dom.checked i | None => true end.

Definition threshold (s : option Dom.Slider) : number :=
  match s with Some s => Dom.ToNumber (Dom.value s) | None => Fin 0 end.

(** [d] is one of the objects of the array [xs]. *)
Definition member (d : Crater) (xs : list Crater) : Prop :=
  exists x, In x xs /\ addr x = addr d.

(** The page the diameter variant leaves: the label, when there is one,
    shows the threshold. *)
Definition relabel (p : Dom.Page) : Dom.Page :=
  match Dom.sliderLabel p with
  | Some _ =>
      {| Dom.showSurvivedInput := Dom.showSurvivedInput p;
         Dom.showErasedInput := Dom.showErasedInput p;
         Dom.slider := Dom.slider p;
         Dom.sliderLabel :=
           Some {| Dom.textContent := Dom.OfNumberKm (threshold (Dom.slider p)) |} |}
  | None => p
  end.

(** The properties of a radius scale [radius], the bounds being restricted to
    the diameters [d >= 0]: it is the clamp of the scaled square root, it is
    non-decreasing on [d >= 0], its values there lie between 1 and 8, and
    elsewhere (a negative diameter, [NaN]) it is [NaN]. *)
Definition radius_scale (radius : number -> number) : Prop :=
  (forall d, radius d = clamp (Math_sqrt d * Fin 0.8)%js (Fin 1) (Fin 8))
  /\ (forall d1 d2, (d1 >=? Fin 0)%js = true -> (d1 <=? d2)%js = true ->
        (radius d1 <=? radius d2)%js = true)
  /\ (forall d, (d >=? Fin 0)%js = true -> in_1_8 (radius d) = true)
  /\ (forall d, (d >=? Fin 0)%js = false -> radius d = NaN).

(** A survived file of one row, created at timestep 0 with diameter 0, and
    an empty erased file. *)
Definition zero_row : Csv.RawRow :=
  {| Csv.Longitude := Some "190";
     Csv.Latitude := Some "10";
     Csv.diameter := Some "0";
     Csv.TimeStepCreated := Some "0";
     Csv.SurvivedTimeStep := None |}.

(** [bound] is the slider bound for the values [values] of the filter field
    and the fallback [fallback]: the ceiling of the maximum when the maximum
    is not zero, and the fallback when the maximum is zero or when no value
    is a number (the list is empty or holds [NaN] only); one of the cases
    applies. *)
Definition slider_bound (values : list number) (fallback bound : number) : Prop :=
  (forall m, is_max values m -> m <> Fin 0 -> bound = Math_ceil m)
  /\ (is_max values (Fin 0) -> bound = fallback)
  /\ ((forall v, In v values -> isNaN v = true) -> bound = fallback)
  /\ ((exists m, is_max values m) \/ (forall v, In v values -> isNaN v = true)).

(** The example of the specification, as loaded by the time variant. *)
Definition example_data : list Crater :=
  D3.csv 0 [row_at "190"] TimeVariant.parseCraterRow.

(** The slider with the given text as its value. *)
Definition slider_at (v : string) : Dom.Slider :=
  {| Dom.max := Dom.OfNumber (Fin 100); Dom.value := Dom.Lit v |}.

(** The class of every circle of [scene] is the survived one exactly when
    its datum is one of the objects of [survivedData]. *)
Definition classes_by_membership (survivedData : list Crater) (scene : Dom.Scene) : Prop :=
  Forall (fun m => Dom.class m = "crater-survived" <-> member (Dom.datum m) survivedData)
         (Dom.circles scene).

(** Two files with the same single row: the two objects have the same
    fields and different addresses. *)
Definition twin_survived : list Crater :=
  D3.csv 0 [row_at "190"] TimeVariant.parseCraterRow.
Definition twin_erased : list Crater :=
  D3.csv 1 [row_at "190"] TimeVariant.parseCraterRow.

Definition twin (a : nat) : Crater :=
  {| addr := a; fields := TimeVariant.parseCraterRow (row_at "190") |}.

(** A page without the show-survived checkbox, and a page without the label
    of the slider. *)
Definition no_survived_checkbox : Dom.Page :=
  {| Dom.showSurvivedInput := None;
     Dom.showErasedInput := Some {| Dom.checked := true |};
     Dom.slider := Some (slider_at "0");
     Dom.sliderLabel := Some {| Dom.textContent := Dom.Lit "0" |} |}.

Definition no_label : Dom.Page := page_of true true (slider_at "0") None.

(** ** Notions and inputs of the further properties *)

(** What the redraw draws in [scene], for the filter field [field], the
    state [showSurvived], [showErased] of the categories and the threshold
    [t]: every circle is bound to a record of a shown dataset whose field is
    a number at least [t] and has the radius of its diameter; nothing is
    drawn for a threshold that is [NaN] or when both categories are hidden;
    the circles are at most as many as the records. *)
Definition drawn_from (field : CraterRecord -> number)
    (showSurvived showErased : bool) (t : number)
    (survivedData erasedData : list Crater) (radius : number -> number)
    (scene : Dom.Scene) : Prop :=
  (forall m, In m (Dom.circles scene) ->
     isNaN (field (Dom.datum m)) = false
     /\ (field (Dom.datum m) >=? t)%js = true
     /\ ((showSurvived = true /\ In (Dom.datum m) survivedData)
         \/ (showErased = true /\ In (Dom.datum m) erasedData))
     /\ Dom.r m = radius (diameter (Dom.datum m)))
  /\ (isNaN t = true -> Dom.circles scene = [])
  /\ (showSurvived = false -> showErased = false -> Dom.circles scene = [])
  /\ (List.length (Dom.circles scene)
      <= List.length survivedData + List.length erasedData)%nat.

(** The radius scale [radius] saturates: it is 8 from the diameter 100 on,
    and 1 for the diameters from 0 to 1.5625. *)
Definition radius_saturates (radius : number -> number) : Prop :=
  (forall d, (d >=? Fin 100)%js = true -> radius d = Fin 8)
  /\ (forall d, ((d >=? Fin 0) && (d <=? Fin 1.5625))%js = true -> radius d = Fin 1).

(** Every circle of [scene] has the class of the array its record comes
    from: the record is in [survived] and not in [erased] and the class is
    the survived one, or the record is in [erased] and not in [survived] and
    the class is the erased one. *)
Definition provenance_classes (survived erased : list Crater) (scene : Dom.Scene) : Prop :=
  forall m, In m (Dom.circles scene) ->
    (In (Dom.datum m) survived /\ ~ In (Dom.datum m) erased
     /\ Dom.class m = "crater-survived")
    \/ (In (Dom.datum m) erased /\ ~ In (Dom.datum m) survived
        /\ Dom.class m = "crater-erased").

(** A file of one feature whose polygon has an outer ring of two positions,
    the second with an altitude, and one hole. *)
Definition outline_example : GeoJson.Region :=
  {| GeoJson.features :=
       [{| GeoJson.coordinates :=
             [[{| GeoJson.plon := Fin 340; GeoJson.plat := Fin 30; GeoJson.more := [] |};
               {| GeoJson.plon := Fin 10; GeoJson.plat := Fin 35; GeoJson.more := [Fin 2] |}];
              [{| GeoJson.plon := Fin 350; GeoJson.plat := Fin 31; GeoJson.more := [] |}]] |}] |}.

Unset Implicit Arguments.

(** * Proofs *)

(** ** The reading of numeric strings, on examples *)

Example ToNumber_190 : ToNumber (Some "190") = Fin 190.
Proof. reflexivity. Qed.
Example ToNumber_neg : ToNumber (Some " -12.50 ") = Fin (- (1250 / 100)).
Proof. reflexivity. Qed.
Example ToNumber_exp : ToNumber (Some "1.5e3") = Fin 1500.
Proof. reflexivity. Qed.
Example ToNumber_hex : ToNumber (Some "0x1F") = Fin 31.
Proof. reflexivity. Qed.
Example ToNumber_bad : ToNumber (Some "12km") = NaN /\ ToNumber (Some ".") = NaN /\ ToNumber (Some "-0x10") = NaN /\ ToNumber (Some "1e") = NaN.
Proof. repeat split; reflexivity. Qed.
Example ToNumber_empty : ToNumber (Some "") = Fin 0 /\ ToNumber None = NaN /\ ToNumber (Some "-Infinity") = NegInf.
Proof. repeat split; reflexivity. Qed.

(** ** Properties of the numbers *)

Section NumberFacts.

Lemma Rltb_true (a b : R) : Rltb a b = true <-> (a < b)%R.
Proof. unfold Rltb; destruct (Rlt_dec a b); split; intros; try discriminate; tauto. Qed.

Lemma Rltb_false (a b : R) : Rltb a b = false <-> (b <= a)%R.
Proof. unfold Rltb; destruct (Rlt_dec a b); split; intros; try discriminate; try lra; auto. Qed.

Lemma Rleb_true (a b : R) : Rleb a b = true <-> (a <= b)%R.
Proof. unfold Rleb; destruct (Rle_dec a b); split; intros; try discriminate; tauto. Qed.

Lemma Rleb_false (a b : R) : Rleb a b = false <-> (b < a)%R.
Proof. unfold Rleb; destruct (Rle_dec a b); split; intros; try discriminate; try lra; auto. Qed.

Lemma Reqb_true (a b : R) : Reqb a b = true <-> a = b.
Proof. unfold Reqb; destruct (Req_dec_T a b); split; intros; try discriminate; tauto. Qed.

Lemma Reqb_false (a b : R) : Reqb a b = false <-> a <> b.
Proof. unfold Reqb; destruct (Req_dec_T a b); split; intros; try discriminate; tauto. Qed.

End NumberFacts.

Ltac js_simpl :=
  cbv beta iota zeta delta
    [ltb leb geb gtb add sub neg mul inf_times isNaN Math_min Math_max
     Math_sqrt Math_ceil truthy orb andb negb xorb] in *.

(** Case analysis on the boolean comparisons of reals that occur in the goal
    or in the hypotheses, closing the arithmetic side conditions. *)
Ltac real_case :=
  match goal with
  | |- context [Rltb ?a ?b] =>
      let H := fresh "H" in
      destruct (Rltb a b) eqn:H;
      [apply Rltb_true in H | apply Rltb_false in H]
  | |- context [Rleb ?a ?b] =>
      let H := fresh "H" in
      destruct (Rleb a b) eqn:H;
      [apply Rleb_true in H | apply Rleb_false in H]
  | |- context [Reqb ?a ?b] =>
      let H := fresh "H" in
      destruct (Reqb a b) eqn:H;
      [apply Reqb_true in H | apply Reqb_false in H]
  | H : Rltb _ _ = true |- _ => apply Rltb_true in H
  | H : Rltb _ _ = false |- _ => apply Rltb_false in H
  | H : Rleb _ _ = true |- _ => apply Rleb_true in H
  | H : Rleb _ _ = false |- _ => apply Rleb_false in H
  | H : Reqb _ _ = true |- _ => apply Reqb_true in H
  | H : Reqb _ _ = false |- _ => apply Reqb_false in H
  end.

Ltac js_solve :=
  js_simpl; repeat (real_case; js_simpl);
  try discriminate; try reflexivity; try lra; try (exfalso; lra).

Section OrderFacts.

Lemma geb_leb (x y : number) : (x >=? y)%js = (y <=? x)%js.
Proof. reflexivity. Qed.

Lemma leb_trans (x y z : number) :
  (x <=? y)%js = true -> (y <=? z)%js = true -> (x <=? z)%js = true.
Proof. destruct x, y, z; intros; js_solve. Qed.

Lemma leb_refl (x : number) : isNaN x = false -> (x <=? x)%js = true.
Proof. destruct x; intros; js_solve. Qed.

Lemma leb_NaN (x : number) : (x <=? x)%js = negb (isNaN x).
Proof. destruct x; js_solve. Qed.

Lemma ltb_leb (x y : number) : (x <? y)%js = true -> (x <=? y)%js = true.
Proof. destruct x, y; intros; js_solve. Qed.

Lemma ltb_false_leb (x y : number) :
  isNaN x = false -> isNaN y = false -> (x <? y)%js = false -> (y <=? x)%js = true.
Proof. destruct x, y; intros; js_solve. Qed.

Lemma leb_not_NaN (x y : number) :
  (x <=? y)%js = true -> isNaN x = false /\ isNaN y = false.
Proof. destruct x, y; intros; js_solve; auto. Qed.

End OrderFacts.

(** ** The row parser and the longitude *)

Section Longitude.

Lemma time_lon_wrap (d : Csv.RawRow) :
  lon (TimeVariant.parseCraterRow d) = wrap (Coerce.ToNumber (Csv.Longitude d)).
Proof. reflexivity. Qed.

Lemma wrap_in_range (L : number) :
  in_range (wrap L) = ((Fin (-360) <=? L) && (L <? Fin 360))%js.
Proof.
  unfold in_range, wrap.
  destruct L as [| | x |]; js_simpl; try reflexivity.
  js_solve.
Qed.

Lemma wrap_beyond (L : number) :
  (L >=? Fin 360)%js = true -> (wrap L >=? Fin 180)%js = true.
Proof.
  unfold wrap.
  destruct L as [| | x |]; js_simpl; intros H; try discriminate; try reflexivity.
  js_solve.
Qed.

Lemma wrap_below (L : number) :
  (L <? Fin (-360))%js = true -> (wrap L <=? Fin (-180))%js = true.
Proof.
  unfold wrap.
  destruct L as [| | x |]; js_simpl; intros H; try discriminate; try reflexivity.
  js_solve.
Qed.

Lemma wrap_NaN (L : number) : isNaN L = true -> isNaN (wrap L) = true.
Proof. destruct L; intros H; try discriminate. reflexivity. Qed.

(** The example of the specification: longitude 190 parses to 10. *)
Example parse_190 : lon (TimeVariant.parseCraterRow (row_at "190")) = Fin (190 + - 180).
Proof.
  rewrite time_lon_wrap. unfold wrap.
  change (Coerce.ToNumber (Csv.Longitude (row_at "190"))) with (Fin 190).
  js_solve.
Qed.

End Longitude.

(** ** The radius scale *)

Section Radius.

Lemma craterRadius_same (d : number) :
  DiameterVariant.craterRadius d = TimeVariant.craterRadius d.
Proof. reflexivity. Qed.

Lemma craterRadius_clamp (d : number) :
  TimeVariant.craterRadius d = clamp (Math_sqrt d * Fin 0.8)%js (Fin 1) (Fin 8).
Proof.
  unfold TimeVariant.craterRadius, clamp.
  destruct d as [| | x |]; js_simpl; try reflexivity; js_solve.
Qed.

Lemma craterRadius_negative (d : number) :
  (d <? Fin 0)%js = true -> TimeVariant.craterRadius d = NaN.
Proof.
  unfold TimeVariant.craterRadius.
  destruct d as [| | x |]; js_simpl; intros H; try discriminate; try reflexivity.
  js_solve.
Qed.

Lemma craterRadius_NaN (d : number) :
  (d >=? Fin 0)%js = false -> TimeVariant.craterRadius d = NaN.
Proof.
  unfold TimeVariant.craterRadius.
  destruct d as [| | x |]; js_simpl; intros H; try discriminate; try reflexivity.
  js_solve.
Qed.

Lemma craterRadius_zero : TimeVariant.craterRadius (Fin 0) = Fin 1.
Proof.
  unfold TimeVariant.craterRadius. cbn [Math_sqrt].
  destruct (Rltb 0 0) eqn:H0; [apply Rltb_true in H0; lra|].
  rewrite sqrt_0. js_solve.
Qed.

Lemma craterRadius_bounds (d : number) :
  (d >=? Fin 0)%js = true -> in_1_8 (TimeVariant.craterRadius d) = true.
Proof.
  unfold TimeVariant.craterRadius, in_1_8.
  destruct d as [| | x |]; js_simpl; intros H; try discriminate; js_solve.
Qed.

Lemma craterRadius_monotone (d1 d2 : number) :
  (d1 >=? Fin 0)%js = true -> (d1 <=? d2)%js = true ->
  (TimeVariant.craterRadius d1 <=? TimeVariant.craterRadius d2)%js = true.
Proof.
  unfold TimeVariant.craterRadius.
  destruct d1 as [| | x |], d2 as [| | y |]; js_simpl; intros H0 H;
    try discriminate; try solve [js_solve].
  apply Rleb_true in H0, H.
  pose proof (sqrt_le_1_alt x y H) as Hs.
  js_solve.
Qed.

(** The example of the specification: a diameter of 16 gives the radius 3.2. *)
Example craterRadius_16 : TimeVariant.craterRadius (Fin 16) = Fin (4 * 0.8).
Proof.
  unfold TimeVariant.craterRadius. cbn [Math_sqrt].
  replace 16%R with (4 * 4)%R by lra.
  rewrite sqrt_square by lra.
  js_solve.
Qed.

End Radius.

(** ** The bound of the slider *)

Section SliderBound.

Lemma leb_antisym (x y : number) :
  (x <=? y)%js = true -> (y <=? x)%js = true -> x = y.
Proof.
  destruct x, y; intros; js_solve.
  f_equal; lra.
Qed.

Lemma Zceil_IZR (z : Z) : Zceil (IZR z) = z.
Proof. unfold Zceil. rewrite ZfloorNZ. lia. Qed.

Lemma max_step_Some (a v : number) :
  isNaN a = false ->
  exists m, D3.max_step (Some a) v = Some m /\ isNaN m = false /\
            (m = a \/ m = v) /\ (a <=? m)%js = true /\
            (isNaN v = false -> (v <=? m)%js = true).
Proof.
  intros Ha. unfold D3.max_step.
  destruct (a <? v)%js eqn:Hlt.
  - assert (Nv : isNaN v = false) by (destruct a, v; js_solve).
    exists v. repeat apply conj; auto using ltb_leb, leb_refl.
  - exists a. repeat apply conj; auto.
    + now apply leb_refl.
    + intros Hv. now apply ltb_false_leb.
Qed.

Lemma fold_max_Some (values : list number) (a : number) :
  isNaN a = false ->
  exists m, fold_left D3.max_step values (Some a) = Some m /\ isNaN m = false /\
            (m = a \/ In m values) /\ (a <=? m)%js = true /\
            forall v, In v values -> isNaN v = false -> (v <=? m)%js = true.
Proof.
  revert a. induction values as [|v values IH]; intros a Ha.
  - exists a. repeat apply conj; auto using leb_refl.
  - destruct (@max_step_Some a v Ha) as (m1 & E1 & N1 & O1 & L1 & V1).
    destruct (IH m1 N1) as (m & E & N & O & L & V).
    exists m. cbn [fold_left]. rewrite E1. repeat apply conj; auto.
    + destruct O as [-> | O]; [destruct O1 as [-> | ->]|]; cbn [In]; auto.
    + eapply leb_trans; eauto.
    + intros w [<- | Hw] Nw; [eapply leb_trans; eauto | auto].
Qed.

Lemma d3_max_cases (values : list number) :
  (D3.max values = None /\ forall v, In v values -> isNaN v = true)
  \/ (exists m, D3.max values = Some m /\ is_max values m).
Proof.
  unfold D3.max.
  induction values as [|v values IH].
  - left. split; [reflexivity | intros v []].
  - cbn [fold_left D3.max_step]. rewrite geb_leb, leb_NaN.
    destruct (isNaN v) eqn:Nv; cbn [negb].
    + destruct IH as [(E & A) | (m & E & I & N & V)].
      * left. split; auto. intros w [<- | Hw]; auto.
      * right. exists m. split; auto. repeat apply conj; cbn [In]; auto.
        intros w [<- | Hw] Nw; [congruence | auto].
    + right. destruct (@fold_max_Some values v Nv) as (m & E & N & O & L & V).
      exists m. split; auto. repeat apply conj; auto.
      * destruct O as [-> | O]; cbn [In]; auto.
      * intros w [<- | Hw] Nw; auto.
Qed.

Lemma is_max_unique (values : list number) (m m' : number) :
  is_max values m -> is_max values m' -> m = m'.
Proof.
  intros (I & N & V) (I' & N' & V'). apply leb_antisym; auto.
Qed.

Lemma d3_max_is_max (values : list number) (m : number) :
  is_max values m -> D3.max values = Some m.
Proof.
  intros Hm. destruct (d3_max_cases values) as [(E & A) | (m' & E & Hm')].
  - destruct Hm as (I & N & _). apply A in I. congruence.
  - rewrite E. f_equal. eapply is_max_unique; eauto.
Qed.

Lemma d3_max_all_NaN (values : list number) :
  (forall v, In v values -> isNaN v = true) -> D3.max values = None.
Proof.
  intros A. destruct (d3_max_cases values) as [(E & _) | (m & _ & I & N & _)]; auto.
  apply A in I. congruence.
Qed.

Lemma or_else_ceil (o : option number) (z : Z) :
  Math_ceil (or_else o (Fin (IZR z))) =
  match o with
  | Some m => if truthy m then Math_ceil m else Fin (IZR z)
  | None => Fin (IZR z)
  end.
Proof.
  destruct o as [m|]; cbn [or_else]; [destruct (truthy m)|]; auto;
    cbn [Math_ceil]; now rewrite Zceil_IZR.
Qed.

End SliderBound.

(** ** The redraw *)

Section Redraw.

Import Dom.

Lemma fold_append (A : Type) (ys xs : list A) :
  fold_left (fun acc y => acc ++ [y]) ys xs = xs ++ ys.
Proof.
  revert xs.
  induction ys as [|y ys IH]; intros xs; cbn [fold_left].
  - now rewrite app_nil_r.
  - rewrite IH, <- app_assoc. reflexivity.
Qed.

Lemma push_app (A : Type) (maxArguments : nat) (ys xs : list A) :
  push maxArguments xs ys
  = if (List.length ys <=? maxArguments)%nat then Normal (xs ++ ys) else Throw RangeError.
Proof. unfold push. now rewrite fold_append. Qed.

Lemma subseq_nil_l (A : Type) (ys : list A) : subseq (@nil A) ys.
Proof. induction ys; constructor; auto. Qed.

Lemma filter_subseq (A : Type) (f : A -> bool) (xs : list A) :
  subseq (filter f xs) xs.
Proof.
  induction xs as [|x xs IH]; cbn [filter]; [constructor|].
  destruct (f x); [apply subseq_keep | apply subseq_skip]; exact IH.
Qed.

Lemma matching_In (field : CraterRecord -> number) (t : number)
    (xs : list Crater) (d : Crater) :
  In d (matching field t xs) <-> In d xs /\ (field d >=? t)%js = true.
Proof. unfold matching. apply filter_In. Qed.

Lemma map_datum_circle_time (survivedData : list Crater) (xs : list Crater) :
  map datum (map (TimeVariant.circle survivedData) xs) = xs.
Proof. rewrite map_map. cbn [TimeVariant.circle datum]. apply map_id. Qed.

Lemma map_datum_circle_diameter (survivedData : list Crater) (xs : list Crater) :
  map datum (map (DiameterVariant.circle survivedData) xs) = xs.
Proof. rewrite map_map. cbn [DiameterVariant.circle datum]. apply map_id. Qed.

(** The redraw of the time variant on a page with its three controls: it
    throws a [RangeError] when a shown category has more matching records
    than the engine accepts arguments, and draws the filtered sequence
    otherwise. *)
Lemma time_update_eq (maxArguments : nat) (survivedData erasedData : list Crater)
    (showSurvived showErased : bool) (s : Slider) (label : option Label) :
  TimeVariant.update maxArguments survivedData erasedData
    (page_of showSurvived showErased s label) =
  if within_limit maxArguments showSurvived showErased (ToNumber (value s))
       survivedData erasedData
  then Normal {| page := page_of showSurvived showErased s label;
                 circles := map (TimeVariant.circle survivedData)
                              (filtered_spec created showSurvived showErased
                                 (ToNumber (value s)) survivedData erasedData) |}
  else Throw RangeError.
Proof.
  unfold TimeVariant.update, page_of, within_limit, fits, filtered_spec, matching.
  cbn [bind deref showSurvivedInput showErasedInput slider checked].
  destruct (List.length (filter (fun d : Crater => (created d >=? ToNumber (value s))%js)
                           survivedData) <=? maxArguments)%nat eqn:E1;
    destruct (List.length (filter (fun d : Crater => (created d >=? ToNumber (value s))%js)
                             erasedData) <=? maxArguments)%nat eqn:E2;
    destruct showSurvived, showErased;
    rewrite ?push_app, ?E1; cbn [bind andb app];
    rewrite ?push_app, ?E2; cbn [bind andb app];
    rewrite ?app_nil_r; reflexivity.
Qed.

Lemma time_update_within (maxArguments : nat) (survivedData erasedData : list Crater)
    (showSurvived showErased : bool) (s : Slider) (label : option Label) :
  within_limit maxArguments showSurvived showErased (ToNumber (value s))
    survivedData erasedData = true ->
  TimeVariant.update maxArguments survivedData erasedData
    (page_of showSurvived showErased s label) =
  Normal {| page := page_of showSurvived showErased s label;
            circles := map (TimeVariant.circle survivedData)
                         (filtered_spec created showSurvived showErased
                            (ToNumber (value s)) survivedData erasedData) |}.
Proof. intros H. now rewrite time_update_eq, H. Qed.

Lemma time_update_over (maxArguments : nat) (survivedData erasedData : list Crater)
    (showSurvived showErased : bool) (s : Slider) (label : option Label) :
  within_limit maxArguments showSurvived showErased (ToNumber (value s))
    survivedData erasedData = false ->
  TimeVariant.update maxArguments survivedData erasedData
    (page_of showSurvived showErased s label) = Throw RangeError.
Proof. intros H. now rewrite time_update_eq, H. Qed.

(** The redraw of the diameter variant on any page. *)
Lemma diameter_update_eq (survivedData erasedData : list Crater) (p : Page) :
  DiameterVariant.update survivedData erasedData p =
  Normal {| page := relabel p;
            circles := map (DiameterVariant.circle survivedData)
                         (filtered_spec diameter (shown (showSurvivedInput p))
                            (shown (showErasedInput p)) (threshold (slider p))
                            survivedData erasedData) |}.
Proof.
  unfold DiameterVariant.update, filtered_spec, matching, concat, relabel,
    shown, threshold.
  destruct (showSurvivedInput p) as [[[]]|], (showErasedInput p) as [[[]]|];
    rewrite ?app_nil_r; reflexivity.
Qed.

Lemma includes_member (xs : list Crater) (d : Crater) :
  includes xs d = true <-> member d xs.
Proof.
  unfold includes, member. rewrite existsb_exists.
  split; intros (x & I & E); exists x; split; auto; now apply Nat.eqb_eq.
Qed.

Lemma matching_length_le (field : CraterRecord -> number) (t1 t2 : number)
    (xs : list Crater) :
  (t1 <=? t2)%js = true ->
  (List.length (matching field t2 xs) <= List.length (matching field t1 xs))%nat.
Proof.
  intros Ht. unfold matching.
  induction xs as [|x xs IH]; cbn [filter]; [lia|].
  destruct (field x >=? t2)%js eqn:H2.
  - assert (H1 : (field x >=? t1)%js = true).
    { rewrite geb_leb in *. eapply leb_trans; eauto. }
    rewrite H1. cbn [List.length]. lia.
  - destruct (field x >=? t1)%js; cbn [List.length]; lia.
Qed.

Lemma filtered_spec_length_le (field : CraterRecord -> number)
    (showSurvived showErased : bool) (t1 t2 : number) (survived erased : list Crater) :
  (t1 <=? t2)%js = true ->
  (List.length (filtered_spec field showSurvived showErased t2 survived erased)
   <= List.length (filtered_spec field showSurvived showErased t1 survived erased))%nat.
Proof.
  intros Ht. unfold filtered_spec. rewrite !length_app.
  pose proof (matching_length_le field t1 t2 survived Ht).
  pose proof (matching_length_le field t1 t2 erased Ht).
  destruct showSurvived, showErased; cbn [List.length]; lia.
Qed.

(** After the load the slider, when the page has one, carries the bound as
    its [max] and starts at 0. *)
Lemma diameter_loaded_bound (survRows erasedRows : list Csv.RawRow) (p : Dom.Page) :
  exists scene,
    DiameterVariant.loaded survRows erasedRows p = Normal scene
    /\ Dom.slider (Dom.page scene)
       = match Dom.slider p with
         | Some _ =>
             Some {| Dom.max :=
                       Dom.OfNumber
                         (DiameterVariant.roundedMax
                            (D3.csv 0 survRows DiameterVariant.parseCraterRow)
                            (D3.csv (List.length survRows) erasedRows
                               DiameterVariant.parseCraterRow));
                     Dom.value := Dom.OfNumber (Fin 0) |}
         | None => None
         end.
Proof.
  eexists. split.
  - unfold DiameterVariant.loaded, DiameterVariant.createCraterMap.
    apply diameter_update_eq.
  - cbn [Dom.page]. unfold relabel, DiameterVariant.setupSlider.
    cbn [Dom.sliderLabel Dom.slider].
    destruct (Dom.sliderLabel p), (Dom.slider p); reflexivity.
Qed.


Lemma geb_not_NaN (x t : number) :
  (x >=? t)%js = true -> isNaN x = false /\ isNaN t = false.
Proof. rewrite geb_leb. intros H. apply leb_not_NaN in H. tauto. Qed.

Lemma matching_NaN (field : CraterRecord -> number) (t : number) (xs : list Crater) :
  isNaN t = true -> matching field t xs = [].
Proof.
  intros Ht. unfold matching.
  induction xs as [|x xs IH]; cbn [filter]; [reflexivity|].
  destruct (field x >=? t)%js eqn:E; [|exact IH].
  apply geb_not_NaN in E. destruct E. congruence.
Qed.

Lemma matching_length (field : CraterRecord -> number) (t : number) (xs : list Crater) :
  (List.length (matching field t xs) <= List.length xs)%nat.
Proof. unfold matching. apply filter_length_le. Qed.

Lemma matching_all (field : CraterRecord -> number) (t : number) (xs : list Crater) :
  (forall d, In d xs -> (field d >=? t)%js = true) -> matching field t xs = xs.
Proof.
  unfold matching. induction xs as [|x xs IH]; intros H; cbn [filter]; [reflexivity|].
  rewrite (H x (or_introl eq_refl)). f_equal. apply IH. intros d I. apply H. now right.
Qed.

Lemma matching_none (field : CraterRecord -> number) (t : number) (xs : list Crater) :
  (forall d, In d xs -> (field d >=? t)%js = false) -> matching field t xs = [].
Proof.
  unfold matching. induction xs as [|x xs IH]; intros H; cbn [filter]; [reflexivity|].
  rewrite (H x (or_introl eq_refl)). apply IH. intros d I. apply H. now right.
Qed.

Lemma filtered_spec_In (field : CraterRecord -> number) (cS cE : bool) (t : number)
    (survived erased : list Crater) (d : Crater) :
  In d (filtered_spec field cS cE t survived erased)
  <-> (cS = true /\ In d survived /\ (field d >=? t)%js = true)
      \/ (cE = true /\ In d erased /\ (field d >=? t)%js = true).
Proof.
  unfold filtered_spec. rewrite in_app_iff.
  destruct cS, cE; rewrite ?matching_In; cbn [In]; intuition congruence.
Qed.

Lemma filtered_spec_length (field : CraterRecord -> number) (cS cE : bool) (t : number)
    (survived erased : list Crater) :
  (List.length (filtered_spec field cS cE t survived erased)
   <= List.length survived + List.length erased)%nat.
Proof.
  unfold filtered_spec. rewrite length_app.
  pose proof (matching_length field t survived).
  pose proof (matching_length field t erased).
  destruct cS, cE; cbn [List.length]; lia.
Qed.

Lemma drawn_time (survivedData erasedData : list Crater) (cS cE : bool)
    (s : Slider) (label : option Label) :
  drawn_from created cS cE (ToNumber (value s)) survivedData erasedData
    TimeVariant.craterRadius
    {| page := page_of cS cE s label;
       circles := map (TimeVariant.circle survivedData)
                    (filtered_spec created cS cE (ToNumber (value s))
                       survivedData erasedData) |}.
Proof.
  unfold drawn_from. cbn [circles]. split; [|split; [|split]].
  - intros m Hm. apply in_map_iff in Hm. destruct Hm as (d & <- & Hd).
    cbn [TimeVariant.circle datum r].
    apply filtered_spec_In in Hd.
    assert (G : (created d >=? ToNumber (value s))%js = true) by tauto.
    pose proof (geb_not_NaN _ _ G). intuition.
  - intros Ht. unfold filtered_spec. rewrite !matching_NaN by exact Ht.
    destruct cS, cE; reflexivity.
  - intros -> ->. reflexivity.
  - rewrite length_map. apply filtered_spec_length.
Qed.

Lemma drawn_diameter (survivedData erasedData : list Crater) (p : Page) :
  drawn_from diameter (shown (showSurvivedInput p)) (shown (showErasedInput p))
    (threshold (slider p)) survivedData erasedData DiameterVariant.craterRadius
    {| page := relabel p;
       circles := map (DiameterVariant.circle survivedData)
                    (filtered_spec diameter (shown (showSurvivedInput p))
                       (shown (showErasedInput p)) (threshold (slider p))
                       survivedData erasedData) |}.
Proof.
  unfold drawn_from. cbn [circles]. split; [|split; [|split]].
  - intros m Hm. apply in_map_iff in Hm. destruct Hm as (d & <- & Hd).
    cbn [DiameterVariant.circle datum r].
    apply filtered_spec_In in Hd.
    assert (G : (diameter d >=? threshold (slider p))%js = true) by tauto.
    pose proof (geb_not_NaN _ _ G). intuition.
  - intros Ht. unfold filtered_spec. rewrite !matching_NaN by exact Ht.
    destruct (shown _), (shown _); reflexivity.
  - intros -> ->. reflexivity.
  - rewrite length_map. apply filtered_spec_length.
Qed.


Lemma csv_addr (rows : list Csv.RawRow) (row : Csv.RawRow -> CraterRecord)
    (base : nat) (x : Crater) :
  In x (D3.csv base rows row) ->
  (base <= addr x < base + List.length rows)%nat.
Proof.
  revert base. induction rows as [|d rows IH]; intros base; cbn [D3.csv In List.length].
  - intros [].
  - intros [<- | I]; [cbn [addr]; lia|].
    apply IH in I. lia.
Qed.

Lemma csv_fields (rows : list Csv.RawRow) (row : Csv.RawRow -> CraterRecord) (base : nat) :
  map fields (D3.csv base rows row) = map row rows.
Proof.
  revert base. induction rows as [|d rows IH]; intros base; cbn [D3.csv map fields].
  - reflexivity.
  - now rewrite IH.
Qed.

(** The objects of the two files are apart: no address of the erased file
    is an address of the survived file. *)
Lemma csv_apart (survRows erasedRows : list Csv.RawRow)
    (row : Csv.RawRow -> CraterRecord) (d : Crater) :
  In d (D3.csv (List.length survRows) erasedRows row) ->
  includes (D3.csv 0 survRows row) d = false.
Proof.
  intros I. apply csv_addr in I.
  destruct (includes (D3.csv 0 survRows row) d) eqn:E; [|reflexivity].
  apply includes_member in E. destruct E as (x & Ix & Ex).
  apply csv_addr in Ix. lia.
Qed.

Lemma csv_includes (xs : list Crater) (d : Crater) :
  In d xs -> includes xs d = true.
Proof. intros I. apply includes_member. exists d. auto. Qed.

Lemma csv_disjoint (survRows erasedRows : list Csv.RawRow)
    (row : Csv.RawRow -> CraterRecord) (d : Crater) :
  In d (D3.csv 0 survRows row) ->
  In d (D3.csv (List.length survRows) erasedRows row) -> False.
Proof. intros I1 I2. apply csv_addr in I1, I2. lia. Qed.

Lemma provenance_time (survRows erasedRows : list Csv.RawRow)
    (row : Csv.RawRow -> CraterRecord) (p : Page) (xs : list Crater) :
  (forall d, In d xs ->
     In d (D3.csv 0 survRows row)
     \/ In d (D3.csv (List.length survRows) erasedRows row)) ->
  provenance_classes (D3.csv 0 survRows row)
    (D3.csv (List.length survRows) erasedRows row)
    {| page := p; circles := map (TimeVariant.circle (D3.csv 0 survRows row)) xs |}.
Proof.
  intros H m Hm. cbn [circles] in Hm. apply in_map_iff in Hm.
  destruct Hm as (d & <- & Hd). cbn [TimeVariant.circle datum class].
  destruct (H d Hd) as [I | I].
  - left. rewrite (csv_includes _ _ I). repeat apply conj; auto.
    intros I'. eapply csv_disjoint; eauto.
  - right. rewrite (csv_apart _ _ _ _ I). repeat apply conj; auto.
    intros I'. eapply csv_disjoint; eauto.
Qed.

Lemma filtered_spec_from (field : CraterRecord -> number) (cS cE : bool) (t : number)
    (survived erased : list Crater) (d : Crater) :
  In d (filtered_spec field cS cE t survived erased) -> In d survived \/ In d erased.
Proof. rewrite filtered_spec_In. tauto. Qed.

Lemma time_loaded_eq (maxArguments : nat) (survRows erasedRows : list Csv.RawRow)
    (showSurvived showErased : bool) (s : Slider) (label : option Label) :
  TimeVariant.loaded maxArguments survRows erasedRows
    (page_of showSurvived showErased s label)
  = if within_limit maxArguments showSurvived showErased (Fin 0)
         (D3.csv 0 survRows TimeVariant.parseCraterRow)
         (D3.csv (List.length survRows) erasedRows TimeVariant.parseCraterRow)
    then
      Normal
        {| page :=
             page_of showSurvived showErased
               {| max := OfNumber
                           (TimeVariant.roundedMax
                              (D3.csv 0 survRows TimeVariant.parseCraterRow)
                              (D3.csv (List.length survRows) erasedRows
                                 TimeVariant.parseCraterRow));
                  value := OfNumber (Fin 0) |}
               (match label with
                | Some _ => Some {| textContent := Lit "0" |}
                | None => None
                end);
           circles :=
             map (TimeVariant.circle (D3.csv 0 survRows TimeVariant.parseCraterRow))
               (filtered_spec created showSurvived showErased (Fin 0)
                  (D3.csv 0 survRows TimeVariant.parseCraterRow)
                  (D3.csv (List.length survRows) erasedRows
                     TimeVariant.parseCraterRow)) |}
    else Throw RangeError.
Proof.
  unfold TimeVariant.loaded, TimeVariant.createCraterMap.
  cbn [bind deref TimeVariant.setupSlider page_of showSurvivedInput
       showErasedInput slider sliderLabel].
  match goal with
  | |- TimeVariant.update _ ?a ?b _ = _ =>
      exact (time_update_eq maxArguments a b showSurvived showErased
               {| max := OfNumber (TimeVariant.roundedMax a b);
                  value := OfNumber (Fin 0) |}
               (match label with
                | Some _ => Some {| textContent := Lit "0" |}
                | None => None
                end))
  end.
Qed.

Lemma setupSlider_threshold (maxVal : number) (p : Page) :
  threshold (slider (DiameterVariant.setupSlider maxVal p)) = Fin 0
  /\ shown (showSurvivedInput (DiameterVariant.setupSlider maxVal p))
     = shown (showSurvivedInput p)
  /\ shown (showErasedInput (DiameterVariant.setupSlider maxVal p))
     = shown (showErasedInput p).
Proof.
  cbn [DiameterVariant.setupSlider slider showSurvivedInput showErasedInput].
  destruct (slider p); repeat apply conj; reflexivity.
Qed.


Lemma csv_In_row (rows : list Csv.RawRow) (row : Csv.RawRow -> CraterRecord)
    (base : nat) (x : Crater) :
  In x (D3.csv base rows row) -> exists d, In d rows /\ fields x = row d.
Proof.
  revert base. induction rows as [|d rows IH]; intros base; cbn [D3.csv In].
  - intros [].
  - intros [<- | I]; [exists d; auto|].
    destruct (IH _ I) as (d' & I' & E). exists d'. auto.
Qed.

Lemma csv_length (rows : list Csv.RawRow) (row : Csv.RawRow -> CraterRecord) (base : nat) :
  List.length (D3.csv base rows row) = List.length rows.
Proof.
  revert base. induction rows as [|d rows IH]; intros base; cbn [D3.csv List.length];
    [reflexivity | now rewrite IH].
Qed.


(** When the datasets themselves are within the limit, so is every redraw. *)
Lemma within_limit_small (maxArguments : nat) (cS cE : bool) (t : number)
    (survived erased : list Crater) :
  (List.length survived <= maxArguments)%nat ->
  (List.length erased <= maxArguments)%nat ->
  within_limit maxArguments cS cE t survived erased = true.
Proof.
  intros H1 H2. unfold within_limit, fits.
  pose proof (matching_length created t survived).
  pose proof (matching_length created t erased).
  destruct cS, cE; cbn [andb]; rewrite ?andb_true_iff, ?Nat.leb_le; try split; lia.
Qed.

(** A redraw within the limit stays within it when the threshold is raised
    and when a category is hidden. *)
Lemma within_limit_raise (maxArguments : nat) (cS cE : bool) (t1 t2 : number)
    (survived erased : list Crater) :
  (t1 <=? t2)%js = true ->
  within_limit maxArguments cS cE t1 survived erased = true ->
  within_limit maxArguments cS cE t2 survived erased = true.
Proof.
  intros Ht. unfold within_limit, fits.
  pose proof (matching_length_le created t1 t2 survived Ht).
  pose proof (matching_length_le created t1 t2 erased Ht).
  destruct cS, cE; cbn [andb]; rewrite ?andb_true_iff, ?Nat.leb_le; intuition lia.
Qed.

Lemma within_limit_hide (maxArguments : nat) (cS cE cS' cE' : bool) (t : number)
    (survived erased : list Crater) :
  (cS' = true -> cS = true) -> (cE' = true -> cE = true) ->
  within_limit maxArguments cS cE t survived erased = true ->
  within_limit maxArguments cS' cE' t survived erased = true.
Proof.
  unfold within_limit, fits. intros HS HE.
  destruct cS', cE'; try rewrite (HS eq_refl); try rewrite (HE eq_refl);
    destruct cS, cE; cbn [andb]; rewrite ?andb_true_iff; intuition.
Qed.

(** A dataset of [n] copies of the example row: every record is created at
    timestep 5. *)
Lemma crowd_all_pass (n : nat) (d : Crater) :
  In d (crowd n) -> (created d >=? Fin 0)%js = true.
Proof.
  unfold crowd. intros I. apply csv_In_row in I. destruct I as (r & Ir & E).
  apply repeat_spec in Ir. subst r. rewrite E.
  change (created (TimeVariant.parseCraterRow (row_at "190"))) with (Fin 5).
  js_solve.
Qed.

Lemma crowd_length (n : nat) : List.length (crowd n) = n.
Proof. unfold crowd. now rewrite csv_length, repeat_length. Qed.

(** One record more than the engine accepts arguments: the redraw with the
    survived category shown at the threshold 0 is beyond the limit. *)
Lemma crowd_over (maxArguments : nat) (cE : bool) (erased : list Crater) :
  within_limit maxArguments true cE (Fin 0) (crowd (S maxArguments)) erased = false.
Proof.
  unfold within_limit, fits.
  rewrite (matching_all created (Fin 0) (crowd (S maxArguments)))
    by (intros d; apply crowd_all_pass).
  rewrite crowd_length.
  replace (S maxArguments <=? maxArguments)%nat with false; [reflexivity|].
  symmetry. apply Nat.leb_gt. lia.
Qed.

Lemma time_update_not_TypeError (maxArguments : nat) (survivedData erasedData : list Crater)
    (showSurvived showErased : bool) (s : Slider) (label : option Label) :
  TimeVariant.update maxArguments survivedData erasedData
    (page_of showSurvived showErased s label) <> Throw TypeError.
Proof. rewrite time_update_eq. destruct (within_limit _ _ _ _ _ _); discriminate. Qed.

End Redraw.

(** * The properties of the specification *)

(** ** C1, C10: the longitude of a parsed row *)

(** C1, as stated, fails.  The diameter variant does not shift the longitude:
    the row of the specification's example, with longitude 190, keeps 190.
    The time variant wraps once: a longitude of 400 parses to 220.  Neither
    lies in the interval from -180 to 180. *)
Lemma lon_out_of_range :
  in_range (lon (DiameterVariant.parseCraterRow (row_at "190"))) = false
  /\ in_range (lon (TimeVariant.parseCraterRow (row_at "400"))) = false.
Proof.
  split.
  - change (lon (DiameterVariant.parseCraterRow (row_at "190"))) with (Fin 190).
    unfold in_range. js_solve.
  - rewrite time_lon_wrap, wrap_in_range.
    change (Coerce.ToNumber (Csv.Longitude (row_at "400"))) with (Fin 400).
    js_solve.
Qed.

(** C1, amended.  In the time variant, a row whose longitude cell reads as a
    number [L] with [-360 <= L < 360] parses to [lon = wrap L], the transform
    [lon' = L - 180; if lon' < -180 then lon' += 360], and this [lon] lies in
    the interval from -180 (included) to 180 (excluded).  The diameter
    variant stores the longitude as read. *)
Theorem parseCraterRow_lon (d : Csv.RawRow) :
  ((Fin (-360) <=? Coerce.ToNumber (Csv.Longitude d))
   && (Coerce.ToNumber (Csv.Longitude d) <? Fin 360))%js = true ->
  lon (TimeVariant.parseCraterRow d) = wrap (Coerce.ToNumber (Csv.Longitude d))
  /\ in_range (lon (TimeVariant.parseCraterRow d)) = true
  /\ lon (DiameterVariant.parseCraterRow d) = Coerce.ToNumber (Csv.Longitude d).
Proof.
  intros H. repeat apply conj.
  - apply time_lon_wrap.
  - rewrite time_lon_wrap, wrap_in_range. exact H.
  - reflexivity.
Qed.

Lemma row_190_in_domain :
  ((Fin (-360) <=? Coerce.ToNumber (Csv.Longitude (row_at "190")))
   && (Coerce.ToNumber (Csv.Longitude (row_at "190")) <? Fin 360))%js = true.
Proof.
  change (Coerce.ToNumber (Csv.Longitude (row_at "190"))) with (Fin 190).
  js_solve.
Qed.

Lemma parseCraterRow_lon_witness :
  lon (TimeVariant.parseCraterRow (row_at "190"))
    = wrap (Coerce.ToNumber (Csv.Longitude (row_at "190")))
  /\ in_range (lon (TimeVariant.parseCraterRow (row_at "190"))) = true
  /\ lon (DiameterVariant.parseCraterRow (row_at "190"))
     = Coerce.ToNumber (Csv.Longitude (row_at "190")).
Proof. exact (parseCraterRow_lon (row_at "190") row_190_in_domain). Defined.

(** C10, as stated, fails at the lower end of the interval.  On binary64
    numbers the raw longitude just below -360 gives [lon - 180 = -540] after
    rounding, and the wrap yields -180: the parsed longitude lies in the
    interval from -180 to 180 although the raw one is below -360. *)
Lemma lon_in_range_below_minus_360 :
  PrimFloat.ltb Binary64.below_minus_360 Binary64.minus_360 = true
  /\ Binary64.parse_lon Binary64.below_minus_360 = Binary64.minus_180
  /\ Binary64.in_range (Binary64.parse_lon Binary64.below_minus_360) = true.
Proof. repeat split; vm_compute; reflexivity. Qed.

(** C10, amended.  In the time variant the single wrap yields a parsed
    longitude in the interval from -180 (included) to 180 (excluded) for
    every raw longitude [L] with [-360 <= L < 360]; for [L >= 360] the parsed
    longitude is at least 180, and for [L < -360] it is at most -180 (the
    value -180 itself, which is in the interval, being reached by rounding
    just below -360); a longitude that is not a number parses to [NaN]. *)
Theorem time_lon_single_wrap (d : Csv.RawRow) :
  (((Fin (-360) <=? Coerce.ToNumber (Csv.Longitude d))
    && (Coerce.ToNumber (Csv.Longitude d) <? Fin 360))%js = true ->
   in_range (lon (TimeVariant.parseCraterRow d)) = true)
  /\ ((Coerce.ToNumber (Csv.Longitude d) >=? Fin 360)%js = true ->
      (lon (TimeVariant.parseCraterRow d) >=? Fin 180)%js = true)
  /\ ((Coerce.ToNumber (Csv.Longitude d) <? Fin (-360))%js = true ->
      (lon (TimeVariant.parseCraterRow d) <=? Fin (-180))%js = true)
  /\ (isNaN (Coerce.ToNumber (Csv.Longitude d)) = true ->
      isNaN (lon (TimeVariant.parseCraterRow d)) = true).
Proof.
  rewrite time_lon_wrap. repeat apply conj.
  - intros H. now rewrite wrap_in_range.
  - apply wrap_beyond.
  - apply wrap_below.
  - apply wrap_NaN.
Qed.

Lemma row_400_beyond :
  (Coerce.ToNumber (Csv.Longitude (row_at "400")) >=? Fin 360)%js = true.
Proof.
  change (Coerce.ToNumber (Csv.Longitude (row_at "400"))) with (Fin 400).
  js_solve.
Qed.

Lemma time_lon_single_wrap_witness :
  (lon (TimeVariant.parseCraterRow (row_at "400")) >=? Fin 180)%js = true.
Proof.
  exact (proj1 (proj2 (time_lon_single_wrap (row_at "400"))) row_400_beyond).
Defined.

(** ** C3, C5: the radius scale *)

(** C3, as stated, fails: a diameter of -1 is at most 0, and its radius is
    [NaN] in both variants, not the minimum 1. *)
Lemma craterRadius_minus_one :
  (Fin (-1) <=? Fin 0)%js = true
  /\ TimeVariant.craterRadius (Fin (-1)) = NaN
  /\ DiameterVariant.craterRadius (Fin (-1)) = NaN
  /\ NaN <> Fin 1.
Proof.
  assert (H : (Fin (-1) <? Fin 0)%js = true) by js_solve.
  repeat apply conj.
  - js_solve.
  - exact (craterRadius_negative _ H).
  - exact (craterRadius_negative _ H).
  - discriminate.
Qed.

(** C3, amended.  The radius scale is total; for a diameter [d <= 0] the
    radius is the minimum 1 when [d] is zero, and [NaN] when [d] is
    negative. *)
Theorem craterRadius_nonpositive (d : number) :
  (d <=? Fin 0)%js = true ->
  TimeVariant.craterRadius d = (if (d <? Fin 0)%js then NaN else Fin 1)
  /\ DiameterVariant.craterRadius d = (if (d <? Fin 0)%js then NaN else Fin 1).
Proof.
  intros H.
  assert (E : TimeVariant.craterRadius d = if (d <? Fin 0)%js then NaN else Fin 1).
  { destruct (d <? Fin 0)%js eqn:Hlt.
    - now apply craterRadius_negative.
    - destruct d as [| | x |]; try discriminate.
      assert (x = 0%R) by js_solve. subst x. apply craterRadius_zero. }
  split; exact E.
Qed.

Lemma zero_nonpositive : (Fin 0 <=? Fin 0)%js = true.
Proof. js_solve. Qed.

Lemma craterRadius_nonpositive_witness :
  TimeVariant.craterRadius (Fin 0) = (if (Fin 0 <? Fin 0)%js then NaN else Fin 1)
  /\ DiameterVariant.craterRadius (Fin 0) = (if (Fin 0 <? Fin 0)%js then NaN else Fin 1).
Proof. exact (craterRadius_nonpositive (Fin 0) zero_nonpositive). Defined.

(** C5, as stated, fails: the radius of the diameter -1 does not lie between
    1 and 8. *)
Lemma craterRadius_not_in_1_8 :
  in_1_8 (TimeVariant.craterRadius (Fin (-1))) = false
  /\ in_1_8 (DiameterVariant.craterRadius (Fin (-1))) = false.
Proof.
  assert (E : TimeVariant.craterRadius (Fin (-1)) = NaN)
    by (apply craterRadius_negative; js_solve).
  split; [rewrite E | change (in_1_8 (TimeVariant.craterRadius (Fin (-1))) = false); rewrite E];
    reflexivity.
Qed.

(** C5, amended.  For every diameter [d], [craterRadius d] is
    [clamp (sqrt d * 0.8) 1 8]; [craterRadius] is non-decreasing on [d >= 0]
    and its value lies between 1 and 8 for every [d >= 0]; for any other
    diameter the value is [NaN]. *)
Theorem craterRadius_scale :
  radius_scale TimeVariant.craterRadius /\ radius_scale DiameterVariant.craterRadius.
Proof.
  assert (H : radius_scale TimeVariant.craterRadius).
  { repeat apply conj.
    - apply craterRadius_clamp.
    - apply craterRadius_monotone.
    - apply craterRadius_bounds.
    - apply craterRadius_NaN. }
  split; exact H.
Qed.

Lemma four_nonnegative : (Fin 4 >=? Fin 0)%js = true.
Proof. js_solve. Qed.

Lemma craterRadius_scale_witness :
  in_1_8 (TimeVariant.craterRadius (Fin 4)) = true.
Proof.
  exact (proj1 (proj2 (proj2 (proj1 craterRadius_scale))) (Fin 4) four_nonnegative).
Defined.

(** ** C7: the bound of the slider *)

(** C7, as stated, fails.  With one survived record whose creation time
    (resp. diameter) is 0, the concatenation is not empty and its maximum is
    the number 0, yet the bound is the fallback 100 (resp. 50), which is not
    the ceiling of 0. *)
Lemma roundedMax_of_zero :
  TimeVariant.roundedMax (D3.csv 0 [zero_row] TimeVariant.parseCraterRow) [] = Fin 100
  /\ DiameterVariant.roundedMax (D3.csv 0 [zero_row] DiameterVariant.parseCraterRow) [] = Fin 50
  /\ is_max (map (fun d : Crater => created d)
               (D3.csv 0 [zero_row] TimeVariant.parseCraterRow ++ [])) (Fin 0)
  /\ is_max (map (fun d : Crater => diameter d)
               (D3.csv 0 [zero_row] DiameterVariant.parseCraterRow ++ [])) (Fin 0)
  /\ D3.csv 0 [zero_row] TimeVariant.parseCraterRow ++ [] <> []
  /\ Math_ceil (Fin 0) = Fin 0
  /\ Fin 0 <> Fin 100 /\ Fin 0 <> Fin 50.
Proof.
  assert (M : is_max [Fin 0] (Fin 0)).
  { repeat apply conj; cbn [In]; auto.
    intros v [<- | []] _. js_solve. }
  assert (C : Math_ceil (Fin 0) = Fin 0)
    by (cbn [Math_ceil]; now rewrite Zceil_IZR).
  assert (T : truthy (Fin 0) = false) by js_solve.
  split; [|split; [|split; [|split; [|split; [|split; [|split]]]]]].
  - unfold TimeVariant.roundedMax.
    change (map _ (D3.csv 0 [zero_row] TimeVariant.parseCraterRow ++ [])) with [Fin 0].
    rewrite (d3_max_is_max _ _ M), or_else_ceil, T. reflexivity.
  - unfold DiameterVariant.roundedMax.
    change (map _ (D3.csv 0 [zero_row] DiameterVariant.parseCraterRow ++ [])) with [Fin 0].
    rewrite (d3_max_is_max _ _ M), or_else_ceil, T. reflexivity.
  - exact M.
  - exact M.
  - discriminate.
  - exact C.
  - intros E. injection E. lra.
  - intros E. injection E. lra.
Qed.

Lemma or_else_slider_bound (values : list number) (z : Z) :
  slider_bound values (Fin (IZR z)) (Math_ceil (or_else (D3.max values) (Fin (IZR z)))).
Proof.
  rewrite or_else_ceil. repeat apply conj.
  - intros m Hm Hz. rewrite (d3_max_is_max _ _ Hm).
    destruct Hm as (_ & N & _).
    destruct m as [| | x |]; try discriminate; try reflexivity.
    assert (x <> 0%R) by congruence.
    replace (truthy (Fin x)) with true by js_solve. reflexivity.
  - intros Hm. rewrite (d3_max_is_max _ _ Hm).
    replace (truthy (Fin 0)) with false by js_solve. reflexivity.
  - intros A. now rewrite (d3_max_all_NaN _ A).
  - destruct (d3_max_cases values) as [(_ & A) | (m & _ & Hm)]; eauto.
Qed.

(** C7, amended.  After a successful load the slider bound equals the
    ceiling of the maximum of the filter field (creation time, resp.
    diameter) over the concatenation of the survived and erased sequences
    when that maximum is a number other than zero; it equals the fallback
    (100, resp. 50) when the maximum is zero, and when the concatenation is
    empty or holds no number. *)
Theorem roundedMax_slider_bound (survMare erasedMare : list Crater) :
  slider_bound (map (fun d : Crater => created d) (survMare ++ erasedMare))
               (Fin 100) (TimeVariant.roundedMax survMare erasedMare)
  /\ slider_bound (map (fun d : Crater => diameter d) (survMare ++ erasedMare))
                  (Fin 50) (DiameterVariant.roundedMax survMare erasedMare).
Proof.
  split; [apply (or_else_slider_bound _ 100) | apply (or_else_slider_bound _ 50)].
Qed.

Lemma example_data_max :
  is_max (map (fun d : Crater => created d) (example_data ++ [])) (Fin 5).
Proof.
  change (map _ (example_data ++ [])) with [Fin 5].
  repeat apply conj; cbn [In]; auto.
  intros v [<- | []] _. js_solve.
Qed.

Lemma five_not_zero : Fin 5 <> Fin 0.
Proof. intros E. injection E. lra. Qed.

Lemma roundedMax_slider_bound_witness :
  TimeVariant.roundedMax example_data [] = Math_ceil (Fin 5).
Proof.
  exact (proj1 (proj1 (roundedMax_slider_bound example_data []))
           (Fin 5) example_data_max five_not_zero).
Defined.

(** ** C4, C8, C9: the filtered sequence *)

(** The filtered sequence of the specification has the announced shape: the
    survived matches come first, each part keeps the order of its dataset,
    and each part holds exactly the records of its dataset that pass the
    threshold when its category is shown. *)
Lemma filtered_spec_shape (field : CraterRecord -> number)
    (showSurvived showErased : bool) (t : number) (survived erased : list Crater) :
  exists fromSurvived fromErased,
    filtered_spec field showSurvived showErased t survived erased
      = fromSurvived ++ fromErased
    /\ subseq fromSurvived survived /\ subseq fromErased erased
    /\ (forall d, In d fromSurvived <->
                  showSurvived = true /\ In d survived /\ (field d >=? t)%js = true)
    /\ (forall d, In d fromErased <->
                  showErased = true /\ In d erased /\ (field d >=? t)%js = true).
Proof.
  exists (if showSurvived then matching field t survived else []),
         (if showErased then matching field t erased else []).
  split; [reflexivity|].
  split; [destruct showSurvived; [apply filter_subseq | apply subseq_nil_l]|].
  split; [destruct showErased; [apply filter_subseq | apply subseq_nil_l]|].
  split; intros d.
  - destruct showSurvived; [rewrite matching_In | cbn [In]]; intuition congruence.
  - destruct showErased; [rewrite matching_In | cbn [In]]; intuition congruence.
Qed.

(** C4.  In the diameter variant, for every state of the controls and every
    pair of datasets, the redraw ends normally and the data bound to the
    circles are the filtered sequence of the specification: the survived
    records whose diameter is at least the threshold if the survived category
    is shown, followed by the erased records filtered the same way if the
    erased category is shown.  The time variant builds the same sequence on
    the creation time as long as every shown category has at most as many
    matching records as the engine accepts arguments; beyond, its
    [filtered.push(...)] throws a [RangeError] and nothing is built, and for
    every engine limit there is a dataset beyond it.  The survived matches
    come first and each part keeps the order of its dataset. *)
Theorem update_filtered :
  (forall maxArguments survivedData erasedData showSurvived showErased s label,
     within_limit maxArguments showSurvived showErased (Dom.ToNumber (Dom.value s))
       survivedData erasedData = true ->
     exists scene,
       TimeVariant.update maxArguments survivedData erasedData
         (page_of showSurvived showErased s label) = Normal scene
       /\ map Dom.datum (Dom.circles scene)
          = filtered_spec created showSurvived showErased
              (Dom.ToNumber (Dom.value s)) survivedData erasedData)
  /\ (forall maxArguments survivedData erasedData showSurvived showErased s label,
        within_limit maxArguments showSurvived showErased (Dom.ToNumber (Dom.value s))
          survivedData erasedData = false ->
        TimeVariant.update maxArguments survivedData erasedData
          (page_of showSurvived showErased s label) = Throw RangeError)
  /\ (forall maxArguments,
        TimeVariant.update maxArguments (crowd (S maxArguments)) []
          (page_of true true (slider_at "0") None) = Throw RangeError)
  /\ (forall survivedData erasedData p,
        exists scene,
          DiameterVariant.update survivedData erasedData p = Normal scene
          /\ map Dom.datum (Dom.circles scene)
             = filtered_spec diameter (shown (Dom.showSurvivedInput p))
                 (shown (Dom.showErasedInput p)) (threshold (Dom.slider p))
                 survivedData erasedData)
  /\ (forall survivedData erasedData field showSurvived showErased t,
        exists fromSurvived fromErased,
          filtered_spec field showSurvived showErased t survivedData erasedData
            = fromSurvived ++ fromErased
          /\ subseq fromSurvived survivedData /\ subseq fromErased erasedData
          /\ (forall d, In d fromSurvived <->
                showSurvived = true /\ In d survivedData /\ (field d >=? t)%js = true)
          /\ (forall d, In d fromErased <->
                showErased = true /\ In d erasedData /\ (field d >=? t)%js = true)).
Proof.
  split; [|split; [|split; [|split]]].
  - intros * H. eexists. split; [apply time_update_within; exact H|].
    cbn [Dom.circles]. apply map_datum_circle_time.
  - intros * H. apply time_update_over; exact H.
  - intros. apply time_update_over.
    change (Dom.ToNumber (Dom.value (slider_at "0"))) with (Fin 0).
    apply crowd_over.
  - intros. eexists. split; [apply diameter_update_eq|].
    cbn [Dom.circles]. apply map_datum_circle_diameter.
  - intros. apply filtered_spec_shape.
Qed.

Lemma example_within_limit (showSurvived showErased : bool) (t : number) :
  within_limit example_limit showSurvived showErased t example_data [] = true.
Proof.
  apply within_limit_small; apply Nat.leb_le; vm_compute; reflexivity.
Qed.

Lemma update_filtered_witness :
  exists scene,
    TimeVariant.update example_limit example_data []
      (page_of true true (slider_at "0") None) = Normal scene
    /\ map Dom.datum (Dom.circles scene)
       = filtered_spec created true true
           (Dom.ToNumber (Dom.value (slider_at "0"))) example_data [].
Proof.
  exact (proj1 update_filtered example_limit example_data [] true true
           (slider_at "0") None (example_within_limit true true _)).
Defined.

(** C8.  For fixed checkboxes and datasets, a redraw at a threshold [t2]
    above a threshold [t1] draws at most as many circles as the redraw at
    [t1]: always in the diameter variant, and in the time variant as long as
    the redraw at [t1] stays within the argument limit of the engine; beyond
    it the redraw at [t1] throws a [RangeError] and draws nothing. *)
Theorem update_count_monotone (maxArguments : nat) (survivedData erasedData : list Crater)
    (showSurvived showErased : bool) (s1 s2 : Dom.Slider) (label : option Dom.Label)
    (cs ce : option Dom.Checkbox) :
  (Dom.ToNumber (Dom.value s1) <=? Dom.ToNumber (Dom.value s2))%js = true ->
  (within_limit maxArguments showSurvived showErased (Dom.ToNumber (Dom.value s1))
     survivedData erasedData = true ->
   exists scene1 scene2,
     TimeVariant.update maxArguments survivedData erasedData
       (page_of showSurvived showErased s1 label) = Normal scene1
     /\ TimeVariant.update maxArguments survivedData erasedData
          (page_of showSurvived showErased s2 label) = Normal scene2
     /\ (List.length (Dom.circles scene2) <= List.length (Dom.circles scene1))%nat)
  /\ (within_limit maxArguments showSurvived showErased (Dom.ToNumber (Dom.value s1))
        survivedData erasedData = false ->
      TimeVariant.update maxArguments survivedData erasedData
        (page_of showSurvived showErased s1 label) = Throw RangeError)
  /\ (exists scene1 scene2,
        DiameterVariant.update survivedData erasedData
          {| Dom.showSurvivedInput := cs; Dom.showErasedInput := ce;
             Dom.slider := Some s1; Dom.sliderLabel := label |} = Normal scene1
        /\ DiameterVariant.update survivedData erasedData
             {| Dom.showSurvivedInput := cs; Dom.showErasedInput := ce;
                Dom.slider := Some s2; Dom.sliderLabel := label |} = Normal scene2
        /\ (List.length (Dom.circles scene2) <= List.length (Dom.circles scene1))%nat).
Proof.
  intros Ht. split; [|split].
  - intros H1. pose proof (within_limit_raise _ _ _ _ _ _ _ Ht H1) as H2.
    do 2 eexists.
    split; [apply time_update_within; exact H1|].
    split; [apply time_update_within; exact H2|].
    cbn [Dom.circles]. rewrite !length_map.
    now apply filtered_spec_length_le.
  - intros H1. apply time_update_over; exact H1.
  - do 2 eexists.
    split; [apply diameter_update_eq|]. split; [apply diameter_update_eq|].
    cbn [Dom.circles Dom.showSurvivedInput Dom.showErasedInput Dom.slider].
    rewrite !length_map.
    now apply filtered_spec_length_le.
Qed.

Lemma slider_0_below_3 :
  (Dom.ToNumber (Dom.value (slider_at "0"))
   <=? Dom.ToNumber (Dom.value (slider_at "3")))%js = true.
Proof.
  change (Dom.ToNumber (Dom.value (slider_at "0"))) with (Fin 0).
  change (Dom.ToNumber (Dom.value (slider_at "3"))) with (Fin 3).
  js_solve.
Qed.

Lemma update_count_monotone_witness :
  exists scene1 scene2,
    TimeVariant.update example_limit example_data []
      (page_of true true (slider_at "0") None) = Normal scene1
    /\ TimeVariant.update example_limit example_data []
         (page_of true true (slider_at "3") None) = Normal scene2
    /\ (List.length (Dom.circles scene2) <= List.length (Dom.circles scene1))%nat.
Proof.
  exact (proj1 (update_count_monotone example_limit example_data [] true true
                  (slider_at "0") (slider_at "3") None None None slider_0_below_3)
           (example_within_limit true true _)).
Defined.

(** C9.  For a fixed threshold and fixed datasets, the redraw with a
    category shown draws the circles of the redraw with that category
    hidden, unchanged, together with the circles of the records of that
    category that pass the threshold: before them for the survived
    category, after them for the erased one.  This holds on every page in
    the diameter variant, and in the time variant as long as the redraw with
    the category shown stays within the argument limit of the engine;
    beyond it that redraw throws a [RangeError]. *)
Theorem update_toggle_off (maxArguments : nat) (survivedData erasedData : list Crater)
    (other : bool) (s : Dom.Slider) (label : option Dom.Label)
    (c : option Dom.Checkbox) (sl : option Dom.Slider) :
  (within_limit maxArguments true other (Dom.ToNumber (Dom.value s))
     survivedData erasedData = true ->
   exists shown hidden,
     TimeVariant.update maxArguments survivedData erasedData
       (page_of true other s label) = Normal shown
     /\ TimeVariant.update maxArguments survivedData erasedData
          (page_of false other s label) = Normal hidden
     /\ Dom.circles shown
        = map (TimeVariant.circle survivedData)
            (matching created (Dom.ToNumber (Dom.value s)) survivedData)
          ++ Dom.circles hidden)
  /\ (within_limit maxArguments other true (Dom.ToNumber (Dom.value s))
        survivedData erasedData = true ->
      exists shown hidden,
        TimeVariant.update maxArguments survivedData erasedData
          (page_of other true s label) = Normal shown
        /\ TimeVariant.update maxArguments survivedData erasedData
             (page_of other false s label) = Normal hidden
        /\ Dom.circles shown
           = Dom.circles hidden
             ++ map (TimeVariant.circle survivedData)
                  (matching created (Dom.ToNumber (Dom.value s)) erasedData))
  /\ (forall showSurvived showErased,
        within_limit maxArguments showSurvived showErased (Dom.ToNumber (Dom.value s))
          survivedData erasedData = false ->
        TimeVariant.update maxArguments survivedData erasedData
          (page_of showSurvived showErased s label) = Throw RangeError)
  /\ (exists shown hidden,
        DiameterVariant.update survivedData erasedData
          {| Dom.showSurvivedInput := Some {| Dom.checked := true |};
             Dom.showErasedInput := c; Dom.slider := sl; Dom.sliderLabel := label |}
          = Normal shown
        /\ DiameterVariant.update survivedData erasedData
             {| Dom.showSurvivedInput := Some {| Dom.checked := false |};
                Dom.showErasedInput := c; Dom.slider := sl; Dom.sliderLabel := label |}
           = Normal hidden
        /\ Dom.circles shown
           = map (DiameterVariant.circle survivedData)
               (matching diameter (threshold sl) survivedData)
             ++ Dom.circles hidden)
  /\ (exists shown hidden,
        DiameterVariant.update survivedData erasedData
          {| Dom.showSurvivedInput := c;
             Dom.showErasedInput := Some {| Dom.checked := true |};
             Dom.slider := sl; Dom.sliderLabel := label |}
          = Normal shown
        /\ DiameterVariant.update survivedData erasedData
             {| Dom.showSurvivedInput := c;
                Dom.showErasedInput := Some {| Dom.checked := false |};
                Dom.slider := sl; Dom.sliderLabel := label |}
           = Normal hidden
        /\ Dom.circles shown
           = Dom.circles hidden
             ++ map (DiameterVariant.circle survivedData)
                  (matching diameter (threshold sl) erasedData)).
Proof.
  split; [|split; [|split; [|split]]].
  - intros H.
    assert (H' : within_limit maxArguments false other (Dom.ToNumber (Dom.value s))
                   survivedData erasedData = true)
      by (revert H; apply within_limit_hide; auto; discriminate).
    do 2 eexists.
    split; [apply time_update_within; exact H|].
    split; [apply time_update_within; exact H'|].
    cbn [Dom.circles]. unfold filtered_spec. rewrite <- map_app. reflexivity.
  - intros H.
    assert (H' : within_limit maxArguments other false (Dom.ToNumber (Dom.value s))
                   survivedData erasedData = true)
      by (revert H; apply within_limit_hide; auto; discriminate).
    do 2 eexists.
    split; [apply time_update_within; exact H|].
    split; [apply time_update_within; exact H'|].
    cbn [Dom.circles]. unfold filtered_spec. rewrite <- map_app, app_nil_r. reflexivity.
  - intros * H. apply time_update_over; exact H.
  - do 2 eexists. split; [apply diameter_update_eq|]. split; [apply diameter_update_eq|].
    cbn [Dom.circles Dom.showSurvivedInput Dom.showErasedInput Dom.slider shown Dom.checked].
    unfold filtered_spec. rewrite <- map_app. reflexivity.
  - do 2 eexists. split; [apply diameter_update_eq|]. split; [apply diameter_update_eq|].
    cbn [Dom.circles Dom.showSurvivedInput Dom.showErasedInput Dom.slider shown Dom.checked].
    unfold filtered_spec. rewrite <- map_app, app_nil_r. reflexivity.
Qed.

Lemma update_toggle_off_witness :
  exists shown hidden,
    TimeVariant.update example_limit example_data [] (page_of true true (slider_at "0") None)
    = Normal shown
    /\ TimeVariant.update example_limit example_data []
         (page_of false true (slider_at "0") None) = Normal hidden
    /\ Dom.circles shown
       = map (TimeVariant.circle example_data)
           (matching created (Dom.ToNumber (Dom.value (slider_at "0"))) example_data)
         ++ Dom.circles hidden.
Proof.
  exact (proj1 (update_toggle_off example_limit example_data [] true (slider_at "0")
                  None None None)
           (example_within_limit true true _)).
Defined.

(** ** C6: the class of a circle *)

Lemma class_time (survivedData : list Crater) (d : Crater) :
  Dom.class (TimeVariant.circle survivedData d) = "crater-survived"
  <-> member d survivedData.
Proof.
  rewrite <- includes_member. cbn [TimeVariant.circle Dom.class].
  destruct (includes survivedData d); split; intros; try discriminate; auto.
Qed.

Lemma class_diameter (survivedData : list Crater) (d : Crater) :
  Dom.class (DiameterVariant.circle survivedData d) = "crater-survived"
  <-> member d survivedData.
Proof. exact (class_time survivedData d). Qed.

Lemma In_member (survivedData : list Crater) (d : Crater) :
  In d survivedData -> member d survivedData.
Proof. intros I. exists d. auto. Qed.

(** C6.  In both variants every circle the redraw draws has the survived
    class if and only if its datum is an object of the survived array (a
    redraw of the time variant beyond the argument limit of the engine
    throws and draws nothing).  In particular a record of the survived array
    that passes the threshold while its category is shown is drawn, with the
    survived class, also when the erased array holds a record with the same
    values. *)
Theorem class_survived_iff_member (maxArguments : nat)
    (survivedData erasedData : list Crater) :
  (forall showSurvived showErased s label,
     within_limit maxArguments showSurvived showErased (Dom.ToNumber (Dom.value s))
       survivedData erasedData = true ->
     exists scene,
       TimeVariant.update maxArguments survivedData erasedData
         (page_of showSurvived showErased s label) = Normal scene
       /\ classes_by_membership survivedData scene)
  /\ (forall showSurvived showErased s label,
        within_limit maxArguments showSurvived showErased (Dom.ToNumber (Dom.value s))
          survivedData erasedData = false ->
        TimeVariant.update maxArguments survivedData erasedData
          (page_of showSurvived showErased s label) = Throw RangeError)
  /\ (forall p,
        exists scene,
          DiameterVariant.update survivedData erasedData p = Normal scene
          /\ classes_by_membership survivedData scene)
  /\ (forall showErased s label d d',
        In d survivedData -> In d' erasedData -> fields d' = fields d ->
        (created d >=? Dom.ToNumber (Dom.value s))%js = true ->
        within_limit maxArguments true showErased (Dom.ToNumber (Dom.value s))
          survivedData erasedData = true ->
        exists scene,
          TimeVariant.update maxArguments survivedData erasedData
            (page_of true showErased s label) = Normal scene
          /\ exists m, In m (Dom.circles scene) /\ Dom.datum m = d
                       /\ Dom.class m = "crater-survived")
  /\ (forall p d d',
        In d survivedData -> In d' erasedData -> fields d' = fields d ->
        shown (Dom.showSurvivedInput p) = true ->
        (diameter d >=? threshold (Dom.slider p))%js = true ->
        exists scene,
          DiameterVariant.update survivedData erasedData p = Normal scene
          /\ exists m, In m (Dom.circles scene) /\ Dom.datum m = d
                       /\ Dom.class m = "crater-survived").
Proof.
  split; [|split; [|split; [|split]]].
  - intros * H. eexists. split; [apply time_update_within; exact H|].
    unfold classes_by_membership. cbn [Dom.circles].
    apply Forall_map, Forall_forall. intros d _. apply class_time.
  - intros * H. apply time_update_over; exact H.
  - intros. eexists. split; [apply diameter_update_eq|].
    unfold classes_by_membership. cbn [Dom.circles].
    apply Forall_map, Forall_forall. intros d _. apply class_diameter.
  - intros showErased s label d d' I _ _ G H.
    eexists. split; [apply time_update_within; exact H|].
    exists (TimeVariant.circle survivedData d). cbn [Dom.circles]. split; [|split].
    + apply in_map. apply filtered_spec_In. left. auto.
    + reflexivity.
    + apply class_time. now apply In_member.
  - intros p d d' I _ _ S G.
    eexists. split; [apply diameter_update_eq|].
    exists (DiameterVariant.circle survivedData d). cbn [Dom.circles]. split; [|split].
    + apply in_map. apply filtered_spec_In. left. auto.
    + reflexivity.
    + apply class_diameter. now apply In_member.
Qed.

Lemma twin_passes_0 :
  (created (twin 0) >=? Dom.ToNumber (Dom.value (slider_at "0")))%js = true.
Proof.
  change (created (twin 0)) with (Fin 5).
  change (Dom.ToNumber (Dom.value (slider_at "0"))) with (Fin 0).
  js_solve.
Qed.

Lemma twins_within_limit (showSurvived showErased : bool) (t : number) :
  within_limit example_limit showSurvived showErased t twin_survived twin_erased = true.
Proof.
  apply within_limit_small; apply Nat.leb_le; vm_compute; reflexivity.
Qed.

Lemma class_survived_iff_member_witness :
  exists scene,
    TimeVariant.update example_limit twin_survived twin_erased
      (page_of true true (slider_at "0") None) = Normal scene
    /\ exists m, In m (Dom.circles scene) /\ Dom.datum m = twin 0
                 /\ Dom.class m = "crater-survived".
Proof.
  exact (proj1 (proj2 (proj2 (proj2
           (class_survived_iff_member example_limit twin_survived twin_erased))))
           true (slider_at "0") None (twin 0) (twin 1)
           (or_introl eq_refl) (or_introl eq_refl) eq_refl
           twin_passes_0 (twins_within_limit true true _)).
Defined.

(** With both categories shown the two twins are drawn, the survived one
    with the survived class and the erased one with the erased class. *)
Example twins_drawn :
  exists scene,
    TimeVariant.update example_limit twin_survived twin_erased
      (page_of true true (slider_at "0") None) = Normal scene
    /\ map Dom.datum (Dom.circles scene) = [twin 0; twin 1]
    /\ map Dom.class (Dom.circles scene) = ["crater-survived"; "crater-erased"].
Proof.
  eexists. split; [apply time_update_within; apply twins_within_limit|].
  cbn [Dom.circles]. rewrite map_datum_circle_time, map_map.
  assert (F : filtered_spec created true true
                (Dom.ToNumber (Dom.value (slider_at "0"))) twin_survived twin_erased
              = [twin 0; twin 1]).
  { unfold filtered_spec, matching.
    change twin_survived with [twin 0]. change twin_erased with [twin 1].
    change (Dom.ToNumber (Dom.value (slider_at "0"))) with (Fin 0).
    cbn [filter].
    change (created (twin 0)) with (Fin 5). change (created (twin 1)) with (Fin 5).
    replace (Fin 5 >=? Fin 0)%js with true by js_solve. reflexivity. }
  rewrite F. split; reflexivity.
Qed.

(** ** C2: absent controls *)

(** The diameter variant never throws: an absent control degrades to its
    default. *)
Lemma diameter_update_total (survivedData erasedData : list Crater) (p : Dom.Page) :
  exists scene,
    DiameterVariant.createCraterMap survivedData erasedData p = Normal scene
    /\ map Dom.datum (Dom.circles scene)
       = filtered_spec diameter (shown (Dom.showSurvivedInput p))
           (shown (Dom.showErasedInput p)) (threshold (Dom.slider p))
           survivedData erasedData.
Proof.
  eexists. split; [apply diameter_update_eq|].
  cbn [Dom.circles]. apply map_datum_circle_diameter.
Qed.

(** The redraw of the time variant throws a [TypeError] exactly when a
    checkbox or the slider is absent. *)
Lemma time_update_throws_iff (maxArguments : nat) (survivedData erasedData : list Crater)
    (p : Dom.Page) :
  TimeVariant.update maxArguments survivedData erasedData p = Throw TypeError
  <-> (Dom.showSurvivedInput p = None \/ Dom.showErasedInput p = None
       \/ Dom.slider p = None).
Proof.
  destruct p as [[[cS]|] [[cE]|] [sl|] label];
    cbn [Dom.showSurvivedInput Dom.showErasedInput Dom.slider];
    try (split; [intros _; auto | reflexivity]).
  split; [|intros [H | [H | H]]; discriminate].
  intros H. exfalso. revert H.
  apply (time_update_not_TypeError maxArguments survivedData erasedData cS cE sl label).
Qed.

(** C2 fails on the time variant.  On a page without the show-survived
    checkbox its redraw throws a [TypeError], and so does the construction of
    the map, before anything is drawn; on a page without the label, the
    listener of the slider throws before it redraws.  The diameter variant
    draws both pages with the defaults. *)
Theorem time_update_throws_on_absent_control (maxArguments : nat)
    (survivedData erasedData : list Crater) :
  TimeVariant.update maxArguments survivedData erasedData no_survived_checkbox
  = Throw TypeError
  /\ TimeVariant.createCraterMap maxArguments survivedData erasedData no_survived_checkbox
     = Throw TypeError
  /\ TimeVariant.sliderInput maxArguments survivedData erasedData no_label
     = Throw TypeError
  /\ (exists scene,
        DiameterVariant.update survivedData erasedData no_survived_checkbox = Normal scene)
  /\ (exists scene,
        DiameterVariant.update survivedData erasedData no_label = Normal scene).
Proof.
  split; [reflexivity|]. split; [reflexivity|]. split; [reflexivity|].
  split; eexists; apply diameter_update_eq.
Qed.

(** * Further properties of the scripts *)

(** ** The row parsers *)

(** X1.  The two row parsers differ on the survival cell only by the case of
    a missing value: the time variant yields [null] exactly when the cell is
    absent or empty and otherwise the number the diameter variant yields; the
    diameter variant yields 0 for an empty cell and [NaN] for an absent one.
    The latitude, the diameter and the creation time are read alike. *)
Theorem survivedTime_variants (d : Csv.RawRow) :
  (survivedTime (TimeVariant.parseCraterRow d) = None
   <-> Csv.SurvivedTimeStep d = None \/ Csv.SurvivedTimeStep d = Some "")
  /\ (survivedTime (TimeVariant.parseCraterRow d) <> None ->
      survivedTime (TimeVariant.parseCraterRow d)
      = survivedTime (DiameterVariant.parseCraterRow d))
  /\ (Csv.SurvivedTimeStep d = Some "" ->
      survivedTime (DiameterVariant.parseCraterRow d) = Some (Fin 0))
  /\ (Csv.SurvivedTimeStep d = None ->
      survivedTime (DiameterVariant.parseCraterRow d) = Some NaN)
  /\ lat (TimeVariant.parseCraterRow d) = lat (DiameterVariant.parseCraterRow d)
  /\ diameter (TimeVariant.parseCraterRow d) = diameter (DiameterVariant.parseCraterRow d)
  /\ created (TimeVariant.parseCraterRow d) = created (DiameterVariant.parseCraterRow d).
Proof.
  cbn [TimeVariant.parseCraterRow DiameterVariant.parseCraterRow
       survivedTime lat diameter created].
  destruct (Csv.SurvivedTimeStep d) as [[|c s]|]; cbn [Coerce.ToBoolean];
    repeat apply conj; try reflexivity; intuition congruence.
Qed.

Lemma survivedTime_variants_witness :
  survivedTime (DiameterVariant.parseCraterRow
                  {| Csv.Longitude := Some "190"; Csv.Latitude := Some "10";
                     Csv.diameter := Some "16"; Csv.TimeStepCreated := Some "5";
                     Csv.SurvivedTimeStep := Some "" |}) = Some (Fin 0).
Proof.
  exact (proj1 (proj2 (proj2 (survivedTime_variants
           {| Csv.Longitude := Some "190"; Csv.Latitude := Some "10";
              Csv.diameter := Some "16"; Csv.TimeStepCreated := Some "5";
              Csv.SurvivedTimeStep := Some "" |}))) eq_refl).
Defined.

Lemma wrap_upper_half (x : R) :
  (0 <= x)%R -> wrap (Fin x) = Fin (x + - 180).
Proof. intros H. unfold wrap. js_solve. Qed.

(** X2.  On the longitudes from 0 (included) to 360 (excluded) the time
    variant's parser shifts by 180 without wrapping, and it keeps the order
    of the longitudes: a row with the smaller longitude gets the smaller
    parsed longitude, or the same one. *)
Theorem time_lon_increasing (d1 d2 : Csv.RawRow) :
  (Fin 0 <=? Coerce.ToNumber (Csv.Longitude d1))%js = true ->
  (Coerce.ToNumber (Csv.Longitude d1) <=? Coerce.ToNumber (Csv.Longitude d2))%js = true ->
  (Coerce.ToNumber (Csv.Longitude d2) <? Fin 360)%js = true ->
  (lon (TimeVariant.parseCraterRow d1) <=? lon (TimeVariant.parseCraterRow d2))%js = true
  /\ lon (TimeVariant.parseCraterRow d1)
     = (Coerce.ToNumber (Csv.Longitude d1) - Fin 180)%js
  /\ lon (TimeVariant.parseCraterRow d2)
     = (Coerce.ToNumber (Csv.Longitude d2) - Fin 180)%js.
Proof.
  rewrite !time_lon_wrap.
  destruct (Coerce.ToNumber (Csv.Longitude d1)) as [| | x |],
           (Coerce.ToNumber (Csv.Longitude d2)) as [| | y |];
    intros H0 H1 H2; try discriminate.
  assert (0 <= x)%R by js_solve. assert (x <= y)%R by js_solve.
  rewrite !wrap_upper_half by lra.
  repeat apply conj; js_solve.
Qed.

Lemma row_10_nonnegative :
  (Fin 0 <=? Coerce.ToNumber (Csv.Longitude (row_at "10")))%js = true.
Proof. change (Coerce.ToNumber (Csv.Longitude (row_at "10"))) with (Fin 10). js_solve. Qed.

Lemma row_10_below_190 :
  (Coerce.ToNumber (Csv.Longitude (row_at "10"))
   <=? Coerce.ToNumber (Csv.Longitude (row_at "190")))%js = true.
Proof.
  change (Coerce.ToNumber (Csv.Longitude (row_at "10"))) with (Fin 10).
  change (Coerce.ToNumber (Csv.Longitude (row_at "190"))) with (Fin 190).
  js_solve.
Qed.

Lemma row_190_below_360 :
  (Coerce.ToNumber (Csv.Longitude (row_at "190")) <? Fin 360)%js = true.
Proof. change (Coerce.ToNumber (Csv.Longitude (row_at "190"))) with (Fin 190). js_solve. Qed.

Lemma time_lon_increasing_witness :
  (lon (TimeVariant.parseCraterRow (row_at "10"))
   <=? lon (TimeVariant.parseCraterRow (row_at "190")))%js = true
  /\ lon (TimeVariant.parseCraterRow (row_at "10"))
     = (Coerce.ToNumber (Csv.Longitude (row_at "10")) - Fin 180)%js
  /\ lon (TimeVariant.parseCraterRow (row_at "190"))
     = (Coerce.ToNumber (Csv.Longitude (row_at "190")) - Fin 180)%js.
Proof.
  exact (time_lon_increasing (row_at "10") (row_at "190")
           row_10_nonnegative row_10_below_190 row_190_below_360).
Defined.

(** ** The outline *)

(** X3.  On a file whose features are polygons, the handler of the outline
    file throws a [TypeError] when the file has no feature, and when its
    first feature has no ring. *)
Theorem outlineLoaded_throws (region : GeoJson.Region) :
  (GeoJson.features region = [] ->
   TimeVariant.outlineLoaded region = Throw TypeError)
  /\ (forall f fs,
        GeoJson.features region = f :: fs -> GeoJson.coordinates f = [] ->
        TimeVariant.outlineLoaded region = Throw TypeError).
Proof.
  unfold TimeVariant.outlineLoaded. split.
  - intros ->. reflexivity.
  - intros f fs -> E. cbn [hd_error deref bind]. rewrite E. reflexivity.
Qed.

Lemma outlineLoaded_throws_witness :
  TimeVariant.outlineLoaded {| GeoJson.features := [] |} = Throw TypeError.
Proof.
  exact (proj1 (outlineLoaded_throws {| GeoJson.features := [] |}) eq_refl).
Defined.

(** X4.  On a file with a first feature and a first ring, the handler of the
    outline file changes that ring only: the other rings of the feature and
    the other features are kept; the ring keeps its number of positions and
    their latitudes, every longitude goes through the longitude shift of the
    row parser, and what follows the latitude in a position is dropped. *)
Theorem outlineLoaded_first_ring (region : GeoJson.Region)
    (f : GeoJson.Feature) (fs : list GeoJson.Feature)
    (ring : GeoJson.Ring) (rings : list GeoJson.Ring) :
  GeoJson.features region = f :: fs ->
  GeoJson.coordinates f = ring :: rings ->
  exists ring',
    TimeVariant.outlineLoaded region
    = Normal {| GeoJson.features := {| GeoJson.coordinates := ring' :: rings |} :: fs |}
    /\ List.length ring' = List.length ring
    /\ map GeoJson.plat ring' = map GeoJson.plat ring
    /\ map GeoJson.plon ring' = map wrap (map GeoJson.plon ring)
    /\ Forall (fun p => GeoJson.more p = []) ring'.
Proof.
  intros Hf Hr. unfold TimeVariant.outlineLoaded.
  rewrite Hf. cbn [hd_error deref bind tl]. rewrite Hr. cbn [hd_error deref bind tl].
  eexists. split; [reflexivity|].
  split; [apply length_map|].
  split; [rewrite map_map; reflexivity|].
  split; [rewrite !map_map; reflexivity|].
  apply Forall_map, Forall_forall. reflexivity.
Qed.

Lemma outlineLoaded_first_ring_witness :
  exists ring',
    TimeVariant.outlineLoaded outline_example
    = Normal {| GeoJson.features :=
                  [{| GeoJson.coordinates :=
                        [ring';
                         [{| GeoJson.plon := Fin 350; GeoJson.plat := Fin 31;
                             GeoJson.more := [] |}]] |}] |}
    /\ List.length ring' = 2%nat
    /\ map GeoJson.plat ring' = [Fin 30; Fin 35]
    /\ map GeoJson.plon ring' = map wrap [Fin 340; Fin 10]
    /\ Forall (fun p => GeoJson.more p = []) ring'.
Proof.
  exact (outlineLoaded_first_ring outline_example _ _ _ _ eq_refl eq_refl).
Defined.

(** X5.  When every longitude of the first ring is a number from -360
    (included) to 360 (excluded), every longitude of the ring the handler
    leaves lies from -180 (included) to 180 (excluded). *)
Theorem outlineLoaded_in_range (region : GeoJson.Region)
    (f : GeoJson.Feature) (fs : list GeoJson.Feature)
    (ring : GeoJson.Ring) (rings : list GeoJson.Ring) :
  GeoJson.features region = f :: fs ->
  GeoJson.coordinates f = ring :: rings ->
  Forall (fun p => ((Fin (-360) <=? GeoJson.plon p) && (GeoJson.plon p <? Fin 360))%js = true)
         ring ->
  exists ring',
    TimeVariant.outlineLoaded region
    = Normal {| GeoJson.features := {| GeoJson.coordinates := ring' :: rings |} :: fs |}
    /\ Forall (fun p => in_range (GeoJson.plon p) = true) ring'.
Proof.
  intros Hf Hr Hin. unfold TimeVariant.outlineLoaded.
  rewrite Hf. cbn [hd_error deref bind tl]. rewrite Hr. cbn [hd_error deref bind tl].
  eexists. split; [reflexivity|].
  apply Forall_map. revert Hin. apply Forall_impl. intros p Hp.
  cbn [GeoJson.plon]. change (in_range (wrap (GeoJson.plon p)) = true).
  rewrite wrap_in_range. exact Hp.
Qed.

Lemma outline_example_in_domain :
  Forall (fun p => ((Fin (-360) <=? GeoJson.plon p) && (GeoJson.plon p <? Fin 360))%js = true)
         [{| GeoJson.plon := Fin 340; GeoJson.plat := Fin 30; GeoJson.more := [] |};
          {| GeoJson.plon := Fin 10; GeoJson.plat := Fin 35; GeoJson.more := [Fin 2] |}].
Proof. repeat constructor; cbn [GeoJson.plon]; js_solve. Qed.

Lemma outlineLoaded_in_range_witness :
  exists ring',
    TimeVariant.outlineLoaded outline_example
    = Normal {| GeoJson.features :=
                  [{| GeoJson.coordinates :=
                        [ring';
                         [{| GeoJson.plon := Fin 350; GeoJson.plat := Fin 31;
                             GeoJson.more := [] |}]] |}] |}
    /\ Forall (fun p => in_range (GeoJson.plon p) = true) ring'.
Proof.
  exact (outlineLoaded_in_range outline_example _ _ _ _ eq_refl eq_refl
           outline_example_in_domain).
Defined.

(** ** The radius scale, continued *)

Lemma sqrt_100 : sqrt 100 = 10%R.
Proof. replace 100%R with (10 * 10)%R by lra. apply sqrt_square. lra. Qed.

Lemma sqrt_1_5625 : sqrt 1.5625 = 1.25%R.
Proof. replace 1.5625%R with (1.25 * 1.25)%R by lra. apply sqrt_square. lra. Qed.

Lemma Math_sqrt_Fin (x : R) : (0 <= x)%R -> Math_sqrt (Fin x) = Fin (sqrt x).
Proof. intros H. js_solve. Qed.

(** The radius of a finite, non-negative diameter, by the position of the
    diameter with respect to 1.5625 and 100. *)
Lemma craterRadius_pieces (x : R) :
  (0 <= x)%R ->
  TimeVariant.craterRadius (Fin x)
  = Fin (if Rle_lt_dec x 1.5625 then 1
         else if Rle_lt_dec 100 x then 8 else sqrt x * 0.8)
  /\ (1.5625 < x -> x < 100 -> 1 < sqrt x * 0.8 < 8)%R.
Proof.
  intros H0. unfold TimeVariant.craterRadius. rewrite Math_sqrt_Fin by exact H0.
  pose proof (sqrt_pos x) as Sp.
  destruct (Rle_lt_dec x 1.5625) as [Hle | Hgt].
  - pose proof (sqrt_le_1_alt x 1.5625 Hle) as Hs. rewrite sqrt_1_5625 in Hs.
    split; [js_solve | lra].
  - assert (S1 : (1.25 < sqrt x)%R)
      by (rewrite <- sqrt_1_5625; apply sqrt_lt_1_alt; lra).
    destruct (Rle_lt_dec 100 x) as [Hge | Hlt].
    + pose proof (sqrt_le_1_alt 100 x Hge) as Hs. rewrite sqrt_100 in Hs.
      split; [js_solve | lra].
    + assert (S2 : (sqrt x < 10)%R)
        by (rewrite <- sqrt_100; apply sqrt_lt_1_alt; lra).
      split; [js_solve | lra].
Qed.

Lemma craterRadius_PosInf : TimeVariant.craterRadius PosInf = Fin 8.
Proof. unfold TimeVariant.craterRadius. js_solve. Qed.

(** X6.  The radius scale saturates, in both variants: every diameter of
    at least 100 is drawn with the maximum radius 8, and every diameter from
    0 to 1.5625 with the minimum radius 1. *)
Theorem craterRadius_saturation :
  radius_saturates TimeVariant.craterRadius
  /\ radius_saturates DiameterVariant.craterRadius.
Proof.
  assert (H : radius_saturates TimeVariant.craterRadius); [|split; exact H].
  split.
  - intros [| | x |] H; try discriminate; [|apply craterRadius_PosInf].
    assert (Hx : (100 <= x)%R) by js_solve.
    destruct (craterRadius_pieces x ltac:(lra)) as (E & _). rewrite E.
    destruct (Rle_lt_dec x 1.5625); [lra|].
    destruct (Rle_lt_dec 100 x); [reflexivity | lra].
  - intros [| | x |] H; apply andb_prop in H; destruct H as (H0 & H1);
      try discriminate.
    assert (Hx : (0 <= x)%R) by js_solve.
    assert (Hy : (x <= 1.5625)%R) by js_solve.
    destruct (craterRadius_pieces x Hx) as (E & _). rewrite E.
    destruct (Rle_lt_dec x 1.5625); [reflexivity | lra].
Qed.

Lemma craterRadius_saturation_witness :
  TimeVariant.craterRadius (Fin 400) = Fin 8.
Proof.
  exact (proj1 (proj1 craterRadius_saturation) (Fin 400) ltac:(js_solve)).
Defined.

(** ** The redraw, continued *)


(** X7.  The redraw draws only what passes the filter, in both variants:
    the datum of every circle is a record of a shown dataset whose filter
    field is a number at least the threshold, and its radius is the radius
    scale of its diameter.  A record whose filter field is [NaN] is never
    drawn; nothing is drawn when the slider value does not read as a number
    or when both categories are hidden; and there are at most as many
    circles as records.  In the time variant this is the redraw within the
    argument limit of the engine; beyond it the redraw throws a
    [RangeError]. *)
Theorem update_draws_only_matching (maxArguments : nat)
    (survivedData erasedData : list Crater) :
  (forall showSurvived showErased s label,
     within_limit maxArguments showSurvived showErased (Dom.ToNumber (Dom.value s))
       survivedData erasedData = true ->
     exists scene,
       TimeVariant.update maxArguments survivedData erasedData
         (page_of showSurvived showErased s label) = Normal scene
       /\ drawn_from created showSurvived showErased (Dom.ToNumber (Dom.value s))
            survivedData erasedData TimeVariant.craterRadius scene)
  /\ (forall showSurvived showErased s label,
        within_limit maxArguments showSurvived showErased (Dom.ToNumber (Dom.value s))
          survivedData erasedData = false ->
        TimeVariant.update maxArguments survivedData erasedData
          (page_of showSurvived showErased s label) = Throw RangeError)
  /\ (forall p,
        exists scene,
          DiameterVariant.update survivedData erasedData p = Normal scene
          /\ drawn_from diameter (shown (Dom.showSurvivedInput p))
               (shown (Dom.showErasedInput p)) (threshold (Dom.slider p))
               survivedData erasedData DiameterVariant.craterRadius scene).
Proof.
  split; [|split]; intros.
  - eexists. split; [apply time_update_within; assumption | apply drawn_time].
  - apply time_update_over; assumption.
  - eexists. split; [apply diameter_update_eq | apply drawn_diameter].
Qed.

Lemma update_draws_only_matching_witness :
  exists scene,
    TimeVariant.update example_limit example_data []
      (page_of true true (slider_at "0") None) = Normal scene
    /\ drawn_from created true true (Dom.ToNumber (Dom.value (slider_at "0")))
         example_data [] TimeVariant.craterRadius scene.
Proof.
  exact (proj1 (update_draws_only_matching example_limit example_data [])
           true true (slider_at "0") None (example_within_limit true true _)).
Defined.

(** X8.  In the diameter variant, when the threshold is at least 0 (as with
    an absent slider), every circle the redraw draws has a radius between 1
    and 8: a record with a negative or malformed diameter, whose radius would
    be [NaN], does not pass the filter. *)
Theorem diameter_update_radii (survivedData erasedData : list Crater) (p : Dom.Page) :
  (threshold (Dom.slider p) >=? Fin 0)%js = true ->
  exists scene,
    DiameterVariant.update survivedData erasedData p = Normal scene
    /\ Forall (fun m => in_1_8 (Dom.r m) = true) (Dom.circles scene).
Proof.
  intros Ht. eexists. split; [apply diameter_update_eq|].
  cbn [Dom.circles]. apply Forall_map, Forall_forall. intros d Hd.
  cbn [DiameterVariant.circle Dom.r].
  apply filtered_spec_In in Hd.
  assert (G : (diameter d >=? threshold (Dom.slider p))%js = true) by tauto.
  apply (craterRadius_bounds (diameter d)).
  rewrite geb_leb in *. eapply leb_trans; eauto.
Qed.

Lemma no_slider_threshold :
  (threshold (Dom.slider
                {| Dom.showSurvivedInput := None; Dom.showErasedInput := None;
                   Dom.slider := None; Dom.sliderLabel := None |}) >=? Fin 0)%js = true.
Proof. cbn [threshold Dom.slider]. js_solve. Qed.

Lemma diameter_update_radii_witness :
  exists scene,
    DiameterVariant.update example_data []
      {| Dom.showSurvivedInput := None; Dom.showErasedInput := None;
         Dom.slider := None; Dom.sliderLabel := None |} = Normal scene
    /\ Forall (fun m => in_1_8 (Dom.r m) = true) (Dom.circles scene).
Proof.
  exact (diameter_update_radii example_data [] _ no_slider_threshold).
Defined.

(** X9.  In the time variant the construction of the map throws a
    [TypeError] exactly when a checkbox or the slider is absent (the label
    is not needed for the first draw), and the listener of the slider throws
    a [TypeError] exactly when one of the four controls is absent. *)
Theorem time_view_throws_iff (maxArguments : nat) (survivedData erasedData : list Crater)
    (p : Dom.Page) :
  (TimeVariant.createCraterMap maxArguments survivedData erasedData p = Throw TypeError
   <-> Dom.showSurvivedInput p = None \/ Dom.showErasedInput p = None
       \/ Dom.slider p = None)
  /\ (TimeVariant.sliderInput maxArguments survivedData erasedData p = Throw TypeError
      <-> Dom.showSurvivedInput p = None \/ Dom.showErasedInput p = None
          \/ Dom.slider p = None \/ Dom.sliderLabel p = None).
Proof.
  unfold TimeVariant.createCraterMap, TimeVariant.sliderInput.
  destruct p as [[[cS]|] [[cE]|] [sl|] [l|]];
    cbn [bind deref Dom.showSurvivedInput Dom.showErasedInput Dom.slider
         Dom.sliderLabel];
    split; split; intros H; try reflexivity; auto;
    try (repeat (destruct H as [H | H]; try discriminate); discriminate);
    exfalso; revert H;
    first [ apply (time_update_not_TypeError maxArguments survivedData erasedData
                     cS cE sl (Some l))
          | apply (time_update_not_TypeError maxArguments survivedData erasedData
                     cS cE sl None)
          | apply (time_update_not_TypeError maxArguments survivedData erasedData
                     cS cE sl (Some {| Dom.textContent := Dom.value sl |})) ].
Qed.

(** X10.  A redraw that ends normally leaves the checkboxes and the slider
    as they are, and redrawing the page it leaves gives the same scene
    again.  The time variant's redraw, within the argument limit of the
    engine, does not touch the label; the diameter variant's sets the label,
    when there is one, to the threshold it filtered with. *)
Theorem update_again (maxArguments : nat) (survivedData erasedData : list Crater) :
  (forall showSurvived showErased s label,
     within_limit maxArguments showSurvived showErased (Dom.ToNumber (Dom.value s))
       survivedData erasedData = true ->
     exists scene,
       TimeVariant.update maxArguments survivedData erasedData
         (page_of showSurvived showErased s label) = Normal scene
       /\ Dom.page scene = page_of showSurvived showErased s label
       /\ TimeVariant.update maxArguments survivedData erasedData (Dom.page scene)
          = Normal scene)
  /\ (forall p,
        exists scene,
          DiameterVariant.update survivedData erasedData p = Normal scene
          /\ Dom.showSurvivedInput (Dom.page scene) = Dom.showSurvivedInput p
          /\ Dom.showErasedInput (Dom.page scene) = Dom.showErasedInput p
          /\ Dom.slider (Dom.page scene) = Dom.slider p
          /\ Dom.sliderLabel (Dom.page scene)
             = match Dom.sliderLabel p with
               | Some _ =>
                   Some {| Dom.textContent := Dom.OfNumberKm (threshold (Dom.slider p)) |}
               | None => None
               end
          /\ DiameterVariant.update survivedData erasedData (Dom.page scene)
             = Normal scene).
Proof.
  split; intros.
  - eexists. split; [apply time_update_within; assumption|]. split; [reflexivity|].
    cbn [Dom.page]. apply time_update_within; assumption.
  - eexists. split; [apply diameter_update_eq|]. cbn [Dom.page].
    assert (E1 : Dom.showSurvivedInput (relabel p) = Dom.showSurvivedInput p)
      by (unfold relabel; destruct (Dom.sliderLabel p); reflexivity).
    assert (E2 : Dom.showErasedInput (relabel p) = Dom.showErasedInput p)
      by (unfold relabel; destruct (Dom.sliderLabel p); reflexivity).
    assert (E3 : Dom.slider (relabel p) = Dom.slider p)
      by (unfold relabel; destruct (Dom.sliderLabel p); reflexivity).
    assert (E4 : relabel (relabel p) = relabel p).
    { unfold relabel. destruct (Dom.sliderLabel p) eqn:E;
        cbn [Dom.sliderLabel Dom.slider Dom.showSurvivedInput Dom.showErasedInput];
        [reflexivity | now rewrite E]. }
    repeat apply conj; auto.
    + unfold relabel. destruct (Dom.sliderLabel p) eqn:E; [reflexivity | exact E].
    + rewrite diameter_update_eq, E1, E2, E3, E4. reflexivity.
Qed.

Lemma update_again_witness :
  exists scene,
    TimeVariant.update example_limit example_data []
      (page_of true true (slider_at "0") None) = Normal scene
    /\ Dom.page scene = page_of true true (slider_at "0") None
    /\ TimeVariant.update example_limit example_data [] (Dom.page scene) = Normal scene.
Proof.
  exact (proj1 (update_again example_limit example_data [])
           true true (slider_at "0") None (example_within_limit true true _)).
Defined.

(** X11.  With all four controls on the page, the listener of the slider in
    the time variant copies the value of the slider into the label and
    draws the circles a redraw of the page draws; when that redraw is beyond
    the argument limit of the engine, the listener throws the same
    [RangeError]. *)
Theorem sliderInput_redraws (maxArguments : nat) (survivedData erasedData : list Crater)
    (showSurvived showErased : bool) (s : Dom.Slider) (l : Dom.Label) :
  (within_limit maxArguments showSurvived showErased (Dom.ToNumber (Dom.value s))
     survivedData erasedData = true ->
   exists scene redrawn,
     TimeVariant.sliderInput maxArguments survivedData erasedData
       (page_of showSurvived showErased s (Some l)) = Normal scene
     /\ TimeVariant.update maxArguments survivedData erasedData
          (page_of showSurvived showErased s (Some l)) = Normal redrawn
     /\ Dom.circles scene = Dom.circles redrawn
     /\ Dom.page scene
        = page_of showSurvived showErased s
            (Some {| Dom.textContent := Dom.value s |}))
  /\ (within_limit maxArguments showSurvived showErased (Dom.ToNumber (Dom.value s))
        survivedData erasedData = false ->
      TimeVariant.sliderInput maxArguments survivedData erasedData
        (page_of showSurvived showErased s (Some l)) = Throw RangeError
      /\ TimeVariant.update maxArguments survivedData erasedData
           (page_of showSurvived showErased s (Some l)) = Throw RangeError).
Proof.
  assert (E : TimeVariant.sliderInput maxArguments survivedData erasedData
                (page_of showSurvived showErased s (Some l))
              = TimeVariant.update maxArguments survivedData erasedData
                  (page_of showSurvived showErased s
                     (Some {| Dom.textContent := Dom.value s |}))) by reflexivity.
  split; intros H.
  - do 2 eexists. split; [|split; [apply time_update_within; exact H|]].
    + rewrite E. apply time_update_within; exact H.
    + split; reflexivity.
  - split; [rewrite E|]; apply time_update_over; exact H.
Qed.

Lemma sliderInput_redraws_witness :
  exists scene redrawn,
    TimeVariant.sliderInput example_limit example_data []
      (page_of true true (slider_at "0") (Some {| Dom.textContent := Dom.Lit "7" |}))
    = Normal scene
    /\ TimeVariant.update example_limit example_data []
         (page_of true true (slider_at "0") (Some {| Dom.textContent := Dom.Lit "7" |}))
       = Normal redrawn
    /\ Dom.circles scene = Dom.circles redrawn
    /\ Dom.page scene
       = page_of true true (slider_at "0")
           (Some {| Dom.textContent := Dom.value (slider_at "0") |}).
Proof.
  exact (proj1 (sliderInput_redraws example_limit example_data [] true true
                  (slider_at "0") {| Dom.textContent := Dom.Lit "7" |})
           (example_within_limit true true _)).
Defined.

(** X12.  With both categories shown, a threshold that every record passes
    draws the survived records followed by the erased records, all of them
    (in the time variant, when neither dataset has more records than the
    engine accepts arguments), and a threshold that no record passes draws
    nothing, in both variants. *)
Theorem update_all_or_none (maxArguments : nat) (survivedData erasedData : list Crater)
    (s : Dom.Slider) (label : option Dom.Label) :
  ((forall d, In d (survivedData ++ erasedData) ->
      (created d >=? Dom.ToNumber (Dom.value s))%js = true) ->
   (List.length survivedData <= maxArguments)%nat ->
   (List.length erasedData <= maxArguments)%nat ->
   exists scene,
     TimeVariant.update maxArguments survivedData erasedData
       (page_of true true s label) = Normal scene
     /\ map Dom.datum (Dom.circles scene) = survivedData ++ erasedData)
  /\ ((forall d, In d (survivedData ++ erasedData) ->
         (created d >=? Dom.ToNumber (Dom.value s))%js = false) ->
      exists scene,
        TimeVariant.update maxArguments survivedData erasedData
          (page_of true true s label) = Normal scene
        /\ Dom.circles scene = [])
  /\ ((forall d, In d (survivedData ++ erasedData) ->
         (diameter d >=? Dom.ToNumber (Dom.value s))%js = true) ->
      exists scene,
        DiameterVariant.update survivedData erasedData (page_of true true s label)
        = Normal scene
        /\ map Dom.datum (Dom.circles scene) = survivedData ++ erasedData)
  /\ ((forall d, In d (survivedData ++ erasedData) ->
         (diameter d >=? Dom.ToNumber (Dom.value s))%js = false) ->
      exists scene,
        DiameterVariant.update survivedData erasedData (page_of true true s label)
        = Normal scene
        /\ Dom.circles scene = []).
Proof.
  split; [|split; [|split]].
  - intros H L1 L2. eexists.
    split; [apply time_update_within; now apply within_limit_small|].
    cbn [Dom.circles]. rewrite map_datum_circle_time. unfold filtered_spec.
    rewrite !matching_all; [reflexivity | |]; intros d I; apply H, in_or_app; auto.
  - intros H.
    assert (M1 : matching created (Dom.ToNumber (Dom.value s)) survivedData = [])
      by (apply matching_none; intros d I; apply H, in_or_app; auto).
    assert (M2 : matching created (Dom.ToNumber (Dom.value s)) erasedData = [])
      by (apply matching_none; intros d I; apply H, in_or_app; auto).
    eexists. split.
    + apply time_update_within. unfold within_limit, fits. now rewrite M1, M2.
    + cbn [Dom.circles]. unfold filtered_spec. now rewrite M1, M2.
  - intros H. eexists. split; [apply diameter_update_eq|].
    cbn [Dom.circles page_of Dom.showSurvivedInput Dom.showErasedInput Dom.slider
         shown threshold Dom.checked].
    rewrite map_datum_circle_diameter. unfold filtered_spec.
    rewrite !matching_all; [reflexivity | |]; intros d I; apply H, in_or_app; auto.
  - intros H. eexists. split; [apply diameter_update_eq|].
    cbn [Dom.circles page_of Dom.showSurvivedInput Dom.showErasedInput Dom.slider
         shown threshold Dom.checked].
    unfold filtered_spec.
    rewrite !matching_none; [reflexivity | |]; intros d I; apply H, in_or_app; auto.
Qed.

Lemma example_data_passes_0 :
  forall d, In d (example_data ++ []) ->
    (created d >=? Dom.ToNumber (Dom.value (slider_at "0")))%js = true.
Proof.
  intros d [<- | []].
  change (created _) with (Fin 5).
  change (Dom.ToNumber (Dom.value (slider_at "0"))) with (Fin 0).
  js_solve.
Qed.

Lemma example_data_small : (List.length example_data <= example_limit)%nat.
Proof. apply Nat.leb_le. vm_compute. reflexivity. Qed.

Lemma empty_small : (List.length (@nil Crater) <= example_limit)%nat.
Proof. apply Nat.leb_le. vm_compute. reflexivity. Qed.

Lemma update_all_or_none_witness :
  exists scene,
    TimeVariant.update example_limit example_data []
      (page_of true true (slider_at "0") None) = Normal scene
    /\ map Dom.datum (Dom.circles scene) = example_data ++ [].
Proof.
  exact (proj1 (update_all_or_none example_limit example_data [] (slider_at "0") None)
           example_data_passes_0 example_data_small empty_small).
Defined.

(** ** The load *)


(** X13.  After a load every circle has the class of the file its record
    comes from, in both variants: the record of a circle belongs to exactly
    one of the two loaded arrays, and the class is the survived one for a
    record of the survived file and the erased one for a record of the
    erased file, whatever the values of the records.  In the time variant
    this is the load within the argument limit of the engine. *)
Theorem loaded_classes (maxArguments : nat) (survRows erasedRows : list Csv.RawRow) :
  (forall showSurvived showErased s label,
     within_limit maxArguments showSurvived showErased (Fin 0)
       (D3.csv 0 survRows TimeVariant.parseCraterRow)
       (D3.csv (List.length survRows) erasedRows TimeVariant.parseCraterRow) = true ->
     exists scene,
       TimeVariant.loaded maxArguments survRows erasedRows
         (page_of showSurvived showErased s label) = Normal scene
       /\ provenance_classes
            (D3.csv 0 survRows TimeVariant.parseCraterRow)
            (D3.csv (List.length survRows) erasedRows TimeVariant.parseCraterRow)
            scene)
  /\ (forall p,
        exists scene,
          DiameterVariant.loaded survRows erasedRows p = Normal scene
          /\ provenance_classes
               (D3.csv 0 survRows DiameterVariant.parseCraterRow)
               (D3.csv (List.length survRows) erasedRows DiameterVariant.parseCraterRow)
               scene).
Proof.
  split; intros.
  - eexists. split; [rewrite time_loaded_eq, H; reflexivity|].
    apply provenance_time. intros d. apply filtered_spec_from.
  - eexists. split.
    + unfold DiameterVariant.loaded, DiameterVariant.createCraterMap.
      apply diameter_update_eq.
    + apply (provenance_time survRows erasedRows DiameterVariant.parseCraterRow).
      intros d. apply filtered_spec_from.
Qed.

Lemma two_rows_within_limit (showSurvived showErased : bool) :
  within_limit example_limit showSurvived showErased (Fin 0)
    (D3.csv 0 [row_at "190"] TimeVariant.parseCraterRow)
    (D3.csv (List.length [row_at "190"]) [row_at "10"] TimeVariant.parseCraterRow) = true.
Proof. apply within_limit_small; apply Nat.leb_le; vm_compute; reflexivity. Qed.

Lemma loaded_classes_witness :
  exists scene,
    TimeVariant.loaded example_limit [row_at "190"] [row_at "10"]
      (page_of true true (slider_at "3") None) = Normal scene
    /\ provenance_classes
         (D3.csv 0 [row_at "190"] TimeVariant.parseCraterRow)
         (D3.csv (List.length [row_at "190"]) [row_at "10"] TimeVariant.parseCraterRow)
         scene.
Proof.
  exact (proj1 (loaded_classes example_limit [row_at "190"] [row_at "10"])
           true true (slider_at "3") None (two_rows_within_limit true true)).
Defined.

(** X14.  The first draw after a load filters with the threshold 0,
    whatever value the slider of the page had: the load resets the slider to
    0 and gives it the bound as its maximum.  The time variant, within the
    argument limit of the engine, leaves the label, when there is one, at
    "0", and beyond the limit the load throws a [RangeError]; the diameter
    variant draws with its defaults on a page with absent controls. *)
Theorem loaded_first_draw (maxArguments : nat) (survRows erasedRows : list Csv.RawRow) :
  (forall showSurvived showErased s label,
     within_limit maxArguments showSurvived showErased (Fin 0)
       (D3.csv 0 survRows TimeVariant.parseCraterRow)
       (D3.csv (List.length survRows) erasedRows TimeVariant.parseCraterRow) = true ->
     exists scene,
       TimeVariant.loaded maxArguments survRows erasedRows
         (page_of showSurvived showErased s label) = Normal scene
       /\ map Dom.datum (Dom.circles scene)
          = filtered_spec created showSurvived showErased (Fin 0)
              (D3.csv 0 survRows TimeVariant.parseCraterRow)
              (D3.csv (List.length survRows) erasedRows TimeVariant.parseCraterRow)
       /\ Dom.slider (Dom.page scene)
          = Some {| Dom.max :=
                      Dom.OfNumber
                        (TimeVariant.roundedMax
                           (D3.csv 0 survRows TimeVariant.parseCraterRow)
                           (D3.csv (List.length survRows) erasedRows
                              TimeVariant.parseCraterRow));
                    Dom.value := Dom.OfNumber (Fin 0) |}
       /\ Dom.sliderLabel (Dom.page scene)
          = match label with
            | Some _ => Some {| Dom.textContent := Dom.Lit "0" |}
            | None => None
            end)
  /\ (forall showSurvived showErased s label,
        within_limit maxArguments showSurvived showErased (Fin 0)
          (D3.csv 0 survRows TimeVariant.parseCraterRow)
          (D3.csv (List.length survRows) erasedRows TimeVariant.parseCraterRow) = false ->
        TimeVariant.loaded maxArguments survRows erasedRows
          (page_of showSurvived showErased s label) = Throw RangeError)
  /\ (forall p,
        exists scene,
          DiameterVariant.loaded survRows erasedRows p = Normal scene
          /\ map Dom.datum (Dom.circles scene)
             = filtered_spec diameter (shown (Dom.showSurvivedInput p))
                 (shown (Dom.showErasedInput p)) (Fin 0)
                 (D3.csv 0 survRows DiameterVariant.parseCraterRow)
                 (D3.csv (List.length survRows) erasedRows
                    DiameterVariant.parseCraterRow)
          /\ Dom.slider (Dom.page scene)
             = match Dom.slider p with
               | Some _ =>
                   Some {| Dom.max :=
                             Dom.OfNumber
                               (DiameterVariant.roundedMax
                                  (D3.csv 0 survRows DiameterVariant.parseCraterRow)
                                  (D3.csv (List.length survRows) erasedRows
                                     DiameterVariant.parseCraterRow));
                           Dom.value := Dom.OfNumber (Fin 0) |}
               | None => None
               end).
Proof.
  split; [|split]; intros.
  - eexists. split; [rewrite time_loaded_eq, H; reflexivity|].
    cbn [Dom.circles Dom.page].
    rewrite map_datum_circle_time. repeat apply conj; reflexivity.
  - now rewrite time_loaded_eq, H.
  - eexists. split.
    + unfold DiameterVariant.loaded, DiameterVariant.createCraterMap.
      apply diameter_update_eq.
    + cbn [Dom.circles Dom.page]. rewrite map_datum_circle_diameter.
      match goal with
      | |- context [DiameterVariant.setupSlider ?m p] =>
          destruct (setupSlider_threshold m p) as (-> & -> & ->)
      end.
      split; [reflexivity|].
      unfold relabel, DiameterVariant.setupSlider.
      cbn [Dom.sliderLabel Dom.slider].
      destruct (Dom.sliderLabel p), (Dom.slider p); reflexivity.
Qed.

Lemma loaded_first_draw_witness :
  exists scene,
    TimeVariant.loaded example_limit [row_at "190"] [row_at "10"]
      (page_of true true (slider_at "3") None) = Normal scene
    /\ map Dom.datum (Dom.circles scene)
       = filtered_spec created true true (Fin 0)
           (D3.csv 0 [row_at "190"] TimeVariant.parseCraterRow)
           (D3.csv (List.length [row_at "190"]) [row_at "10"] TimeVariant.parseCraterRow)
    /\ Dom.slider (Dom.page scene)
       = Some {| Dom.max :=
                   Dom.OfNumber
                     (TimeVariant.roundedMax
                        (D3.csv 0 [row_at "190"] TimeVariant.parseCraterRow)
                        (D3.csv (List.length [row_at "190"]) [row_at "10"]
                           TimeVariant.parseCraterRow));
                 Dom.value := Dom.OfNumber (Fin 0) |}
    /\ Dom.sliderLabel (Dom.page scene) = None.
Proof.
  exact (proj1 (loaded_first_draw example_limit [row_at "190"] [row_at "10"])
           true true (slider_at "3") None (two_rows_within_limit true true)).
Defined.

Section BoundFacts.

Lemma leb_ceil (m : number) : isNaN m = false -> (m <=? Math_ceil m)%js = true.
Proof.
  destruct m as [| | x |]; intros H; try discriminate; try reflexivity.
  cbn [Math_ceil]. pose proof (Zceil_bound x). js_solve.
Qed.

Lemma bound_dominates (values : list number) (z : Z) :
  (0 <= z)%Z ->
  isNaN (Math_ceil (or_else (D3.max values) (Fin (IZR z)))) = false
  /\ forall v, In v values -> isNaN v = false ->
       (v <=? Math_ceil (or_else (D3.max values) (Fin (IZR z))))%js = true.
Proof.
  intros Hz. rewrite or_else_ceil.
  destruct (d3_max_cases values) as [(E & A) | (m & E & I & N & V)]; rewrite E.
  - split; [reflexivity|]. intros v Iv Nv. apply A in Iv. congruence.
  - destruct (truthy m) eqn:T.
    + split.
      * destruct m; try discriminate; reflexivity.
      * intros v Iv Nv. eapply leb_trans; [apply V; auto | now apply leb_ceil].
    + split; [reflexivity|].
      intros v Iv Nv.
      assert (m = Fin 0) as ->.
      { destruct m as [| | x |]; try discriminate. f_equal.
        cbn [truthy] in T.
        destruct (Reqb x 0) eqn:R0; [now apply Reqb_true in R0 | discriminate]. }
      eapply leb_trans; [apply V; auto|].
      apply IZR_le in Hz. js_solve.
Qed.

End BoundFacts.

(** X15.  The slider bound is never [NaN], and no record lies beyond it: the
    filter field of every loaded record, when it is a number, is at most the
    bound, in both variants. *)
Theorem roundedMax_dominates (survMare erasedMare : list Crater) :
  (isNaN (TimeVariant.roundedMax survMare erasedMare) = false
   /\ forall d : Crater, In d (survMare ++ erasedMare) -> isNaN (created d) = false ->
        (created d <=? TimeVariant.roundedMax survMare erasedMare)%js = true)
  /\ (isNaN (DiameterVariant.roundedMax survMare erasedMare) = false
      /\ forall d : Crater, In d (survMare ++ erasedMare) -> isNaN (diameter d) = false ->
           (diameter d <=? DiameterVariant.roundedMax survMare erasedMare)%js = true).
Proof.
  unfold TimeVariant.roundedMax, DiameterVariant.roundedMax. split.
  - destruct (bound_dominates
                (map (fun d : Crater => created d) (survMare ++ erasedMare)) 100
                ltac:(lia)) as (N & D).
    split; [exact N|]. intros d I Nd. apply D; [|exact Nd].
    apply in_map_iff. exists d. auto.
  - destruct (bound_dominates
                (map (fun d : Crater => diameter d) (survMare ++ erasedMare)) 50
                ltac:(lia)) as (N & D).
    split; [exact N|]. intros d I Nd. apply D; [|exact Nd].
    apply in_map_iff. exists d. auto.
Qed.

Lemma roundedMax_dominates_witness :
  (created (twin 0) <=? TimeVariant.roundedMax twin_survived twin_erased)%js = true.
Proof.
  exact (proj2 (proj1 (roundedMax_dominates twin_survived twin_erased))
           (twin 0) (or_introl eq_refl) eq_refl).
Defined.

(** X16.  Setting up the slider twice keeps the last bound only, never
    creates a control the page does not have, leaves the checkboxes as they
    are, and leaves a threshold of 0 for the next redraw, in both
    variants. *)
Theorem setupSlider_again (m1 m2 : number) (p : Dom.Page) :
  (TimeVariant.setupSlider m2 (TimeVariant.setupSlider m1 p) = TimeVariant.setupSlider m2 p
   /\ (Dom.slider (TimeVariant.setupSlider m2 p) = None <-> Dom.slider p = None)
   /\ (Dom.sliderLabel (TimeVariant.setupSlider m2 p) = None <-> Dom.sliderLabel p = None)
   /\ Dom.showSurvivedInput (TimeVariant.setupSlider m2 p) = Dom.showSurvivedInput p
   /\ Dom.showErasedInput (TimeVariant.setupSlider m2 p) = Dom.showErasedInput p
   /\ threshold (Dom.slider (TimeVariant.setupSlider m2 p)) = Fin 0)
  /\ (DiameterVariant.setupSlider m2 (DiameterVariant.setupSlider m1 p)
      = DiameterVariant.setupSlider m2 p
      /\ (Dom.slider (DiameterVariant.setupSlider m2 p) = None <-> Dom.slider p = None)
      /\ (Dom.sliderLabel (DiameterVariant.setupSlider m2 p) = None
          <-> Dom.sliderLabel p = None)
      /\ Dom.showSurvivedInput (DiameterVariant.setupSlider m2 p) = Dom.showSurvivedInput p
      /\ Dom.showErasedInput (DiameterVariant.setupSlider m2 p) = Dom.showErasedInput p
      /\ threshold (Dom.slider (DiameterVariant.setupSlider m2 p)) = Fin 0).
Proof.
  unfold TimeVariant.setupSlider, DiameterVariant.setupSlider.
  cbn [Dom.slider Dom.sliderLabel Dom.showSurvivedInput Dom.showErasedInput].
  destruct (Dom.slider p), (Dom.sliderLabel p);
    repeat apply conj; try reflexivity; try discriminate; auto.
Qed.


(** X17.  When both categories are shown, the filter cell of every row of
    the two files reads as a number that is at least 0, and neither file has
    more rows than the engine accepts arguments, the first draw after a
    load in the time variant draws one circle per row: the records of the
    survived file in the order of the file, then the records of the erased
    file. *)
Theorem loaded_draws_every_row (maxArguments : nat)
    (survRows erasedRows : list Csv.RawRow)
    (s : Dom.Slider) (label : option Dom.Label) :
  (forall d, In d (survRows ++ erasedRows) ->
     (Coerce.ToNumber (Csv.TimeStepCreated d) >=? Fin 0)%js = true) ->
  (List.length survRows <= maxArguments)%nat ->
  (List.length erasedRows <= maxArguments)%nat ->
  exists scene,
    TimeVariant.loaded maxArguments survRows erasedRows (page_of true true s label)
    = Normal scene
    /\ map Dom.datum (Dom.circles scene)
       = D3.csv 0 survRows TimeVariant.parseCraterRow
         ++ D3.csv (List.length survRows) erasedRows TimeVariant.parseCraterRow
    /\ List.length (Dom.circles scene)
       = (List.length survRows + List.length erasedRows)%nat.
Proof.
  intros H L1 L2.
  assert (F : filtered_spec created true true (Fin 0)
                (D3.csv 0 survRows TimeVariant.parseCraterRow)
                (D3.csv (List.length survRows) erasedRows TimeVariant.parseCraterRow)
              = D3.csv 0 survRows TimeVariant.parseCraterRow
                ++ D3.csv (List.length survRows) erasedRows TimeVariant.parseCraterRow).
  { unfold filtered_spec.
    rewrite !matching_all; [reflexivity | |]; intros x I;
      apply csv_In_row in I; destruct I as (d & I & E); rewrite E;
      cbn [TimeVariant.parseCraterRow created]; apply H, in_or_app; auto. }
  eexists. split.
  - rewrite time_loaded_eq, within_limit_small; [reflexivity | |];
      now rewrite csv_length.
  - cbn [Dom.circles].
    rewrite map_datum_circle_time, length_map, F, length_app, !csv_length.
    split; reflexivity.
Qed.

Lemma example_rows_nonnegative :
  forall d, In d ([row_at "190"] ++ [row_at "10"]) ->
    (Coerce.ToNumber (Csv.TimeStepCreated d) >=? Fin 0)%js = true.
Proof.
  intros d [<- | [<- | []]];
    change (Coerce.ToNumber (Csv.TimeStepCreated (row_at _))) with (Fin 5); js_solve.
Qed.

Lemma one_row_small (d : Csv.RawRow) : (List.length [d] <= example_limit)%nat.
Proof. apply Nat.leb_le. vm_compute. reflexivity. Qed.

Lemma loaded_draws_every_row_witness :
  exists scene,
    TimeVariant.loaded example_limit [row_at "190"] [row_at "10"]
      (page_of true true (slider_at "3") None) = Normal scene
    /\ map Dom.datum (Dom.circles scene)
       = D3.csv 0 [row_at "190"] TimeVariant.parseCraterRow
         ++ D3.csv (List.length [row_at "190"]) [row_at "10"] TimeVariant.parseCraterRow
    /\ List.length (Dom.circles scene)
       = (List.length [row_at "190"] + List.length [row_at "10"])%nat.
Proof.
  exact (loaded_draws_every_row example_limit [row_at "190"] [row_at "10"]
           (slider_at "3") None example_rows_nonnegative
           (one_row_small _) (one_row_small _)).
Defined.
